(** * TrackWise: registration and per-company inventory views

    A shallow embedding of the two view modules of the application,
    [accounts/views.py] and [trackwise/inventory/views.py], together with
    the properties the specification states about them.

    The database tables are explicit state: a view takes the request and
    the table and returns its response together with the table afterwards.
    The product table is a finite map from primary key to row, the account
    table a list of rows in insertion order.

    A Python [str] is held as its UTF-8 encoding: a [string] here is the
    sequence of bytes of that encoding. Equality and substring search on
    the encodings agree with those on the strings; the number of
    characters is counted by [Accounts.len]. *)

From Stdlib Require Import ZArith Lia.
From stdpp Require Import base gmap strings list sorting.

Set Warnings "-clear-no-such-hyp".

Open Scope string_scope.
Open Scope list_scope.
Open Scope Z_scope.

(** ** Requests and notices shared by both modules *)

(** [request.GET] and [request.POST]: field name to submitted value.
    [q !! k] is [q.get(k)], which is [None] for an absent field. *)
Abbreviation QueryDict := (gmap string string).

(** [request.GET.get(k, default)]. *)
Definition get_default (q : QueryDict) (k default : string) : string :=
  match q !! k with
  | Some v => v
  | None => default
  end.

(** Modelled from the spec: [accounts/models.py] is not among the sources.
    The profile row reached through [request.user.userprofile] links the
    account to the company it is scoped to (the company's key) and carries
    its role string. *)
Module AccountsModels.
Record UserProfile := {
  company : Z;
  role : string
}.
End AccountsModels.
Export AccountsModels (UserProfile).

(** A request as the views read it. [userprofile] is [request.user.userprofile];
    [None] stands for the access raising [UserProfile.DoesNotExist]. *)
Record HttpRequest := {
  method : string;
  GET : QueryDict;
  POST : QueryDict;
  FILES : QueryDict;
  userprofile : option UserProfile
}.

(** [django.contrib.messages]: the notices a view queues for the user. *)
Inductive Level := error | success.

Record Message := {
  level : Level;
  text : string
}.

(** The double quote character, used inside the product notices. *)
Definition dquote : string := String (Ascii.ascii_of_nat 34) EmptyString.

#[global] Instance Level_eq_dec : EqDecision Level.
Proof. solve_decision. Defined.
#[global] Instance Message_eq_dec : EqDecision Message.
Proof. solve_decision. Defined.
#[global] Instance UserProfile_eq_dec : EqDecision UserProfile.
Proof. solve_decision. Defined.

Definition notice (l : Level) (msg : string) : Message :=
  {| level := l; text := msg |}.

(** ** accounts/views.py *)
Module Accounts.

(** The stored credential: the user manager keeps a hash of the raw
    password, kept symbolic here. *)
Inductive Credential := Hashed (raw : string).

(** A row of the account table. *)
Record User := {
  username : option string;
  password : Credential
}.

Inductive Body :=
| redirect (to : string)
| render (template : string).

Record Response := {
  notices : list Message;
  body : Body
}.

(** What a call of the view does: it returns a response or an exception
    escapes it. *)
Inductive Exn := TypeError | ValueError | IntegrityError.

Inductive Outcome :=
| Returns (r : Response)
| Raises (e : Exn).

(** [User.objects.filter(username=username).exists()] *)
Definition username_exists (name : option string) (users : list User) : bool :=
  existsb (λ u, bool_decide (username u = name)) users.

(** [len(s)]: the number of characters of [s], that is of the bytes of
    its encoding that are not continuation bytes ([10xxxxxx]). *)
Definition is_continuation_byte (c : Ascii.ascii) : bool :=
  let n := Ascii.nat_of_ascii c in
  ((128 <=? n) && (n <? 192))%nat.

Fixpoint len (s : string) : nat :=
  match s with
  | EmptyString => O
  | String c s' => ((if is_continuation_byte c then 0 else 1) + len s')%nat
  end.

(** [unicodedata.normalize("NFKC", name)], which the user manager applies
    to a username before it stores it. The function belongs to Python's
    standard library and is taken as a parameter. *)
Class Unicode := normalize_username : string → string.

(** The row the user manager builds for a username and a raw password. *)
Definition new_user (name raw : string) : User :=
  {| username := Some name; password := Hashed raw |}.

(** [User.objects.create_user(username=..., password=...)]: it raises
    [ValueError] for an absent or empty username, normalises the username,
    and inserts the row; the insert raises [IntegrityError] when the
    normalised username is already stored, the column being unique. On
    success the table has one new row. *)
Definition create_user {uni : Unicode} (name : option string) (raw : string)
    (users : list User) : Exn + list User :=
  match name with
  | None => inl ValueError
  | Some n =>
      if decide (n = "") then inl ValueError
      else
        let stored := normalize_username n in
        if username_exists (Some stored) users then inl IntegrityError
        else inr (users ++ [new_user stored raw])
  end.

Definition rejected (msg : string) : Response :=
  {| notices := [notice error msg]; body := redirect "accounts:register" |}.

Definition accepted : Response :=
  {| notices := [notice success "Account created successfully! You can now log in."];
     body := redirect "accounts:login" |}.

(** The last step of the view: [create_user], [user.save()], the success
    notice and the redirect to the login page. An exception of
    [create_user] escapes the view and nothing is stored. *)
Definition create_and_redirect {uni : Unicode} (name : option string)
    (raw : string) (users : list User) : Outcome * list User :=
  match create_user name raw users with
  | inl e => (Raises e, users)
  | inr users' => (Returns accepted, users')
  end.

Definition register_view {uni : Unicode} (request : HttpRequest)
    (users : list User) : Outcome * list User :=
  if decide (method request = "POST") then
    let username : option string := POST request !! "username" in
    let password1 : option string := POST request !! "password1" in
    let password2 : option string := POST request !! "password2" in
    (* Check if username already exists *)
    if username_exists username users then
      (Returns (rejected "Username already exists. Please choose another."), users)
    else
      (* Check for short password; len(None) raises TypeError *)
      match password1 with
      | None => (Raises TypeError, users)
      | Some p1 =>
          if (Z.of_nat (len p1) <? 8)%Z then
            (Returns (rejected "Password must be at least 8 characters long."), users)
          (* Check for mismatched passwords *)
          else if bool_decide (password1 ≠ password2) then
            (Returns (rejected "Passwords do not match."), users)
          else
            (* If all good, create user *)
            create_and_redirect username p1 users
      end
  else
    (Returns {| notices := []; body := render "accounts/register.html" |}, users).

(** *** The registration contract in the specification's words *)

Inductive RegistrationError :=
| DuplicateUsername
| PasswordTooShort
| PasswordMismatch.

(** The three checks, each a predicate on the submitted triple and the
    existing accounts, listed in the order the specification fixes. *)
Definition violates (e : RegistrationError) (users : list User)
    (name : option string) (p1 : string) (p2 : option string) : Prop :=
  match e with
  | DuplicateUsername => ∃ u, u ∈ users ∧ username u = name
  | PasswordTooShort => (len p1 < 8)%nat
  | PasswordMismatch => p2 ≠ Some p1
  end.

Definition check_order : list RegistrationError :=
  [DuplicateUsername; PasswordTooShort; PasswordMismatch].

Definition error_notice (e : RegistrationError) : string :=
  match e with
  | DuplicateUsername => "Username already exists. Please choose another."
  | PasswordTooShort => "Password must be at least 8 characters long."
  | PasswordMismatch => "Passwords do not match."
  end.

(** [e] is the first failing check: it fails and every check listed
    before it passes. *)
Definition first_failing (e : RegistrationError) (users : list User)
    (name : option string) (p1 : string) (p2 : option string) : Prop :=
  ∃ before after, check_order = before ++ e :: after ∧
    violates e users name p1 p2 ∧
    ∀ e', e' ∈ before → ¬ violates e' users name p1 p2.

Definition all_checks_pass (users : list User)
    (name : option string) (p1 : string) (p2 : option string) : Prop :=
  ∀ e, e ∈ check_order → ¬ violates e users name p1 p2.

(** *** The login view *)

(** How Python formats a value inside an f-string. *)
Definition pystr (v : option string) : string :=
  match v with
  | Some s => s
  | None => "None"
  end.

(** [check_password]: the raw password hashes to the stored credential. *)
Definition check_password (raw : string) (c : Credential) : bool :=
  match c with
  | Hashed stored => bool_decide (stored = raw)
  end.

(** [authenticate(username=..., password=...)] by its contract: the
    account with that username when the password matches its credential;
    [None] when there is no such account, when the password does not
    match, or when either argument is [None]. *)
Definition authenticate (name raw : option string) (users : list User)
  : option User :=
  match name, raw with
  | Some _, Some raw =>
      match List.find (λ u, bool_decide (username u = name)) users with
      | Some user => if check_password raw (password user) then Some user else None
      | None => None
      end
  | _, _ => None
  end.

Definition welcome (name : option string) : Response :=
  {| notices := [notice success ("Welcome back, " +:+ pystr name +:+ "!")];
     body := redirect "dashboard:dashboard" |}.

(** The view returns its response and the account [login(request, user)]
    bound the session to, [None] when it did not call [login]. *)
Definition login_view (request : HttpRequest) (users : list User)
  : Response * option User :=
  if decide (method request = "POST") then
    let username : option string := POST request !! "username" in
    let password : option string := POST request !! "password" in
    (* Check if username exists *)
    if negb (username_exists username users) then
      ({| notices := [notice error "Username does not exist."];
          body := redirect "accounts:login" |}, None)
    else
      (* Authenticate user *)
      match authenticate username password users with
      | Some user =>
          (welcome username, Some user)
      | None =>
          ({| notices := [notice error "Invalid username or password."];
              body := redirect "accounts:login" |}, None)
      end
  else
    ({| notices := []; body := render "accounts/login.html" |}, None).

End Accounts.

(** ** trackwise/inventory/views.py *)
Module Inventory.

(** Modelled from the spec: [inventory/models.py] is not among the
    sources. A product row belongs to one company and has a name, a
    category, a cost price (in the smallest currency unit, so decimal
    arithmetic is exact) and an integer quantity. The primary key is the
    key of the table, not a field of the row. *)
Record Product := {
  company : Z;
  item_name : string;
  category : string;
  cost_price : Z;
  quantity : Z
}.

#[global] Instance Product_eq_dec : EqDecision Product.
Proof. solve_decision. Defined.

(** Modelled from the spec: the derived attribute [Product.total_value]
    of the missing [inventory/models.py] is [cost_price * quantity]. *)
Definition total_value (p : Product) : Z := cost_price p * quantity p.

Definition set_company (c : Z) (p : Product) : Product :=
  {| company := c; item_name := item_name p; category := category p;
     cost_price := cost_price p; quantity := quantity p |}.

Definition set_quantity (q : Z) (p : Product) : Product :=
  {| company := company p; item_name := item_name p; category := category p;
     cost_price := cost_price p; quantity := q |}.

(** The product table, keyed by primary key. A queryset is the map of the
    rows it selects; evaluating it lists them. *)
Abbreviation Table := (gmap Z Product).

(** A model instance in hand: its primary key and its fields. *)
Abbreviation Instance := (Z * Product)%type.

(** The parts of the application the views call but whose code is not
    among the sources: [Product.get_display_quantity] of
    [inventory/models.py] and the validation of [ProductForm] of
    [inventory/forms.py]. [ProductForm_clean data files instance] is
    [None] when [form.is_valid()] is false and otherwise the fields of
    the instance the form saves; for a new product its company is
    whatever the submitted data made it. [ProductForm_rejected data files
    instance] is the instance as a failed [form.is_valid()] leaves it: the
    fields of the submission that did validate are already copied onto
    the object, which is the very object the view holds as [product]. *)
Class Externals := {
  get_display_quantity : Product → string;
  ProductForm_clean : QueryDict → QueryDict → option Product → option Product;
  ProductForm_rejected : QueryDict → QueryDict → Product → Product
}.

(** A [ProductForm] object as handed to a template. *)
Inductive Form :=
| UnboundForm (instance : option Product)
| BoundForm (data files : QueryDict) (instance : option Product).

(** The context dictionaries of the four templates. *)
Inductive Context :=
| ListContext (products : list Instance) (search_query cost_filter : string)
    (profile : UserProfile) (total_inventory_value : Z)
| DetailContext (form : Form) (product : Instance) (profile : UserProfile)
| AddContext (form : Form) (profile : UserProfile)
| DeleteContext (product : Instance) (profile : UserProfile).

(** The body of the JSON answers of the stock endpoints. [total_value] is
    the exact amount the source hands to [float]. *)
Inductive Json :=
| JsonOk (new_quantity : Z) (display_quantity : string) (total_value : Z)
| JsonFail (error : string).

Inductive Body :=
| redirect (to : string)
| render (template : string) (context : Context)
| JsonResponse (json : Json)
| Http404.

Record Response := {
  notices : list Message;
  body : Body
}.

(** *** Case-insensitive substring match ([__icontains]) *)

(** Case is folded on the letters A to Z, character by character. *)
Definition lower_char (c : Ascii.ascii) : Ascii.ascii :=
  let n := Ascii.nat_of_ascii c in
  if ((65 <=? n) && (n <=? 90))%nat then Ascii.ascii_of_nat (n + 32) else c.

Fixpoint lower (s : string) : string :=
  match s with
  | EmptyString => EmptyString
  | String c s' => String (lower_char c) (lower s')
  end.

(** [needle] occurs in [hay] at some position. *)
Fixpoint occurs (needle hay : string) : bool :=
  String.prefix needle hay ||
  match hay with
  | EmptyString => false
  | String _ hay' => occurs needle hay'
  end.

Definition icontains (field query : string) : bool :=
  occurs (lower query) (lower field).

(** *** Querysets *)

(** [Product.objects.filter(company=c)] *)
Definition filter_company (c : Z) (t : Table) : Table :=
  filter (λ r : Instance, company r.2 = c) t.

(** [.filter(Q(item_name__icontains=q) | Q(category__icontains=q))] *)
Definition filter_search (q : string) (t : Table) : Table :=
  filter (λ r : Instance,
    icontains (item_name r.2) q || icontains (category r.2) q = true) t.

Definition cost_le (a b : Instance) : Prop := cost_price a.2 ≤ cost_price b.2.
Definition cost_ge (a b : Instance) : Prop := cost_price b.2 ≤ cost_price a.2.

#[global] Instance cost_le_dec : RelDecision cost_le.
Proof. intros a b. unfold cost_le. apply _. Defined.
#[global] Instance cost_ge_dec : RelDecision cost_ge.
Proof. intros a b. unfold cost_ge. apply _. Defined.

(** Evaluating a queryset under the ordering the [cost_filter] parameter
    selects: [order_by('cost_price')] for ["low"],
    [order_by('-cost_price')] for ["high"], the table's own order
    otherwise. *)
Definition evaluate (cost_filter : string) (t : Table) : list Instance :=
  if decide (cost_filter = "low") then merge_sort cost_le (map_to_list t)
  else if decide (cost_filter = "high") then merge_sort cost_ge (map_to_list t)
  else map_to_list t.

(** The queryset the listing evaluates: the company's rows, narrowed by
    the search when one is given. *)
Definition selected (c : Z) (q : string) (t : Table) : Table :=
  if decide (q = "") then filter_company c t
  else filter_search q (filter_company c t).

(** [Product.objects.get(pk=pk, company=c)]; [None] stands for
    [Product.DoesNotExist]. *)
Definition objects_get (pk c : Z) (t : Table) : option Product :=
  match t !! pk with
  | Some p => if decide (company p = c) then Some p else None
  | None => None
  end.

(** The key the database gives a newly inserted row: one past the
    largest key in use. *)
Definition next_pk (t : Table) : Z :=
  1 + foldr Z.max 0 (map_to_list t).*1.

(** [sum(product.total_value for product in products)] *)
Definition sum_total_value (l : list Instance) : Z :=
  foldl (λ acc r, acc + total_value r.2) 0 l.

(** *** The listing contract in the specification's words *)

(** [needle] is a substring of [hay] when case is ignored. *)
Definition contains_ci (needle hay : string) : Prop :=
  ∃ pre post, lower hay = pre +:+ lower needle +:+ post.

(** The rows a listing for company [c] with search string [q] must show:
    the company's own rows, narrowed, when [q] is not empty, to those
    whose name or whose category contains [q]. *)
Definition visible (c : Z) (q : string) (t : Table) (r : Instance) : Prop :=
  t !! r.1 = Some r.2 ∧ company r.2 = c ∧
  (q = "" ∨ contains_ci q (item_name r.2) ∨ contains_ci q (category r.2)).

(** The sum of [cost_price × quantity] over a list of rows. *)
Definition value_sum (l : list Instance) : Z :=
  foldr (λ r acc, cost_price r.2 * quantity r.2 + acc) 0 l.

(** *** The views *)
Section Views.
Context {ext : Externals}.

Definition respond (msgs : list Message) (b : Body) : Response :=
  {| notices := msgs; body := b |}.

Definition is_owner (profile : UserProfile) : bool :=
  bool_decide (AccountsModels.role profile = "business_owner").

Definition inventory_list (request : HttpRequest) (t : Table) : Response :=
  match userprofile request with
  | None =>
      respond [notice error "User profile not found."] (redirect "dashboard")
  | Some profile =>
      (* Both business owners and staff can access inventory *)
      let products := filter_company (AccountsModels.company profile) t in
      (* Search functionality *)
      let search_query := get_default (GET request) "search" "" in
      let products :=
        if decide (search_query = "") then products
        else filter_search search_query products in
      (* Cost filter *)
      let cost_filter := get_default (GET request) "cost_filter" "" in
      let products := evaluate cost_filter products in
      (* Calculate total inventory value *)
      let total_inventory_value := sum_total_value products in
      let context :=
        ListContext products search_query cost_filter profile
          total_inventory_value in
      (* Use different templates for owner vs staff *)
      if is_owner profile then
        respond [] (render "inventory/inventory_list.html" context)
      else
        respond [] (render "inventory/inventory_list_staff.html" context)
  end.

Definition product_detail (request : HttpRequest) (pk : Z) (t : Table)
  : Response * Table :=
  match userprofile request with
  | None =>
      (respond [notice error "User profile not found."] (redirect "dashboard"), t)
  | Some profile =>
      (* get_object_or_404(Product, pk=pk, company=profile.company) *)
      match objects_get pk (AccountsModels.company profile) t with
      | None => (respond [] Http404, t)
      | Some product =>
          let show (form : Form) (product : Product) :=
            let context := DetailContext form (pk, product) profile in
            if is_owner profile then
              respond [] (render "inventory/product_detail.html" context)
            else
              respond [] (render "inventory/product_detail_staff.html" context) in
          if decide (method request = "POST") then
            (* Only business owners can edit products *)
            if negb (is_owner profile) then
              (respond
                 [notice error "Access denied. Only business owners can edit products."]
                 (redirect "inventory_list"), t)
            else
              match ProductForm_clean (POST request) (FILES request) (Some product) with
              | Some product' =>
                  (respond
                     [notice success
                        ("Product " +:+ dquote +:+ item_name product' +:+ dquote
                           +:+ " updated successfully!")]
                     (redirect "inventory_list"),
                   <[pk := product']> t)
              | None =>
                  (* is_valid() has written the valid fields onto product *)
                  let product :=
                    ProductForm_rejected (POST request) (FILES request) product in
                  (show (BoundForm (POST request) (FILES request) (Some product))
                     product, t)
              end
          else
            (show (UnboundForm (Some product)) product, t)
      end
  end.

Definition product_add (request : HttpRequest) (t : Table) : Response * Table :=
  match userprofile request with
  | None =>
      (respond [notice error "User profile not found."] (redirect "dashboard"), t)
  | Some profile =>
      (* Both owners and staff can add products *)
      if decide (method request = "POST") then
        match ProductForm_clean (POST request) (FILES request) None with
        | Some product =>
            let product := set_company (AccountsModels.company profile) product in
            (respond
               [notice success
                  ("Product " +:+ dquote +:+ item_name product +:+ dquote
                     +:+ " added successfully!")]
               (redirect "inventory_list"),
             <[next_pk t := product]> t)
        | None =>
            (respond []
               (render "inventory/product_add.html"
                  (AddContext (BoundForm (POST request) (FILES request) None) profile)),
             t)
        end
      else
        (respond []
           (render "inventory/product_add.html" (AddContext (UnboundForm None) profile)),
         t)
  end.

Definition stock_json (product : Product) : Body :=
  JsonResponse
    (JsonOk (quantity product) (get_display_quantity product) (total_value product)).

Definition increase_stock (request : HttpRequest) (pk : Z) (t : Table)
  : Response * Table :=
  if decide (method request = "POST") then
    match userprofile request with
    | None => (respond [] (JsonResponse (JsonFail "Product not found")), t)
    | Some profile =>
        match objects_get pk (AccountsModels.company profile) t with
        | None => (respond [] (JsonResponse (JsonFail "Product not found")), t)
        | Some product =>
            let product := set_quantity (quantity product + 1) product in
            (respond [] (stock_json product), <[pk := product]> t)
        end
    end
  else (respond [] (JsonResponse (JsonFail "Invalid request")), t).

Definition decrease_stock (request : HttpRequest) (pk : Z) (t : Table)
  : Response * Table :=
  if decide (method request = "POST") then
    match userprofile request with
    | None => (respond [] (JsonResponse (JsonFail "Product not found")), t)
    | Some profile =>
        match objects_get pk (AccountsModels.company profile) t with
        | None => (respond [] (JsonResponse (JsonFail "Product not found")), t)
        | Some product =>
            if decide (quantity product > 0) then
              let product := set_quantity (quantity product - 1) product in
              (respond [] (stock_json product), <[pk := product]> t)
            else
              (respond [] (stock_json product), t)
        end
    end
  else (respond [] (JsonResponse (JsonFail "Invalid request")), t).

Definition product_delete (request : HttpRequest) (pk : Z) (t : Table)
  : Response * Table :=
  let not_found :=
    respond [notice error "Product not found."] (redirect "inventory_list") in
  match userprofile request with
  | None => (not_found, t)
  | Some profile =>
      match objects_get pk (AccountsModels.company profile) t with
      | None => (not_found, t)
      | Some product =>
          (* Only business owners can delete products *)
          if negb (is_owner profile) then
            (respond
               [notice error "Access denied. Only business owners can delete products."]
               (redirect "inventory_list"), t)
          else if decide (method request = "POST") then
            (respond
               [notice success
                  ("Product " +:+ dquote +:+ item_name product +:+ dquote
                     +:+ " deleted successfully!")]
               (redirect "inventory_list"),
             delete pk t)
          else
            (respond []
               (render "inventory/product_delete.html"
                  (DeleteContext (pk, product) profile)),
             t)
      end
  end.

(** The inventory operations of the specification. Edit is the POST
    form of the detail view, so the request's method tells view and
    edit apart. *)
Inductive Operation :=
| OpList
| OpDetail (pk : Z)
| OpAdd
| OpIncrease (pk : Z)
| OpDecrease (pk : Z)
| OpDelete (pk : Z).

Definition run (op : Operation) (request : HttpRequest) (t : Table)
  : Response * Table :=
  match op with
  | OpList => (inventory_list request t, t)
  | OpDetail pk => product_detail request pk t
  | OpAdd => product_add request t
  | OpIncrease pk => increase_stock request pk t
  | OpDecrease pk => decrease_stock request pk t
  | OpDelete pk => product_delete request pk t
  end.

(** The primary key an operation is aimed at, if it takes one. *)
Definition target (op : Operation) : option Z :=
  match op with
  | OpList | OpAdd => None
  | OpDetail pk | OpIncrease pk | OpDecrease pk | OpDelete pk => Some pk
  end.

(** [n] calls of a stock endpoint in a row on the same product: the
    answers in order and the table after the last call. *)
Fixpoint calls (view : HttpRequest → Z → Table → Response * Table)
    (request : HttpRequest) (pk : Z) (n : nat) (t : Table)
  : list Response * Table :=
  match n with
  | O => ([], t)
  | S n' =>
      let '(r, t') := view request pk t in
      let '(rs, t'') := calls view request pk n' t' in
      (r :: rs, t'')
  end.

End Views.

(** *** Vocabulary of the access-control properties *)

Definition list_template (profile : UserProfile) : string :=
  if is_owner profile then "inventory/inventory_list.html"
  else "inventory/inventory_list_staff.html".

(** The answer carries inventory data: a rendered page or the figures of
    a successful stock change. *)
Definition shows_inventory (r : Response) : bool :=
  match body r with
  | render _ _ | JsonResponse (JsonOk _ _ _) => true
  | redirect _ | JsonResponse (JsonFail _) | Http404 => false
  end.

(** The answer of a stock endpoint reports [success: true]. *)
Definition succeeded (r : Response) : Prop :=
  ∃ q d v, body r = JsonResponse (JsonOk q d v).

(** The answer is the missing-profile failure: its notice and a redirect. *)
Definition fails_with_profile_missing (r : Response) : Prop :=
  notices r = [notice error "User profile not found."] ∧
  ∃ to, body r = redirect to.

(** The writes that stay inside company [c]: nothing, an update or a
    removal of one of its rows, or a new row attached to it. *)
Inductive own_write (c : Z) (t : Table) : Table → Prop :=
| write_none : own_write c t t
| write_update pk p p' :
    t !! pk = Some p → company p = c → own_write c t (<[pk := p']> t)
| write_insert pk p' :
    t !! pk = None → company p' = c → own_write c t (<[pk := p']> t)
| write_delete pk p :
    t !! pk = Some p → company p = c → own_write c t (delete pk t).

(** *** Vocabulary of the further properties *)

(** The rows and the total a listing page carries. *)
Definition listed (r : Response) : list Instance :=
  match body r with
  | render _ (ListContext products _ _ _ _) => products
  | _ => []
  end.

Definition listed_total (r : Response) : Z :=
  match body r with
  | render _ (ListContext _ _ _ _ total) => total
  | _ => 0
  end.

(** No row of the table has a negative quantity. *)
Definition nonneg (t : Table) : Prop :=
  ∀ pk p, t !! pk = Some p → 0 ≤ quantity p.

(** Two characters are the same letter up to case: they are equal, or one
    is a capital letter A to Z and the other the small letter 32 places
    further on. *)
Definition same_letter (a b : Ascii.ascii) : Prop :=
  let m := Ascii.nat_of_ascii a in
  let n := Ascii.nat_of_ascii b in
  a = b ∨ ((65 ≤ m ≤ 90)%nat ∧ n = (m + 32)%nat) ∨
  ((65 ≤ n ≤ 90)%nat ∧ m = (n + 32)%nat).

(** Two strings are the same up to the case of their letters. *)
Inductive same_up_to_case : string → string → Prop :=
| same_empty : same_up_to_case "" ""
| same_next a b s1 s2 :
    same_letter a b → same_up_to_case s1 s2 →
    same_up_to_case (String a s1) (String b s2).

End Inventory.

(** ** Concrete requests and tables used to exercise the views *)
Module Fixtures.

Definition form_request (fields : list (string * string)) : HttpRequest :=
  {| method := "POST"; GET := ∅; POST := list_to_map fields; FILES := ∅;
     userprofile := None |}.

Definition alice : Accounts.User :=
  Accounts.new_user "alice" "correct horse".

Definition fiona : Accounts.User :=
  Accounts.new_user "fiona" "tr0ubad0ur".

(** NFKC on the usernames used here: it leaves the names written in ASCII
    as they are and replaces the ligature of ["ﬁona"] (U+FB01) by the two
    letters [fi]. *)
Definition unicode : Accounts.Unicode :=
  λ name, if decide (name = "ﬁona") then "fiona" else name.

(** A well-formed submission by a new user. *)
Definition signup_ok : HttpRequest :=
  form_request [("username", "bob"); ("password1", "s3cretpass");
                ("password2", "s3cretpass")].

(** A taken username, a short password and a wrong confirmation at once. *)
Definition signup_all_wrong : HttpRequest :=
  form_request [("username", "alice"); ("password1", "short");
                ("password2", "other")].

(** Every check passes, but the username is empty. *)
Definition signup_empty_username : HttpRequest :=
  form_request [("username", ""); ("password1", "s3cretpass");
                ("password2", "s3cretpass")].

(** A username not stored as written, whose normal form is stored. *)
Definition signup_ligature : HttpRequest :=
  form_request [("username", "ﬁona"); ("password1", "s3cretpass");
                ("password2", "s3cretpass")].

(** A password of seven characters that takes eight bytes. *)
Definition signup_seven_characters : HttpRequest :=
  form_request [("username", "bob"); ("password1", "pässwrd");
                ("password2", "pässwrd")].

(** The [password1] field is not submitted at all. *)
Definition signup_no_password1 : HttpRequest :=
  form_request [("username", "bob"); ("password2", "s3cretpass")].

(** A form that accepts any submission naming the item. A new product
    comes out of it with the company the client put in the [company]
    field (company 2 here when the field is filled in). A submission that
    does not name the item is rejected, its category, if it has one,
    being copied onto the instance all the same. *)
Definition externals : Inventory.Externals :=
  {| Inventory.get_display_quantity p :=
       if decide (Inventory.quantity p = 0) then "out of stock" else "in stock";
     Inventory.ProductForm_clean data files instance :=
       match data !! "item_name" with
       | None => None
       | Some name =>
           Some {| Inventory.company :=
                     match instance with
                     | Some p => Inventory.company p
                     | None => if decide (is_Some (data !! "company")) then 2 else 0
                     end;
                   Inventory.item_name := name;
                   Inventory.category := get_default data "category" "";
                   Inventory.cost_price := 250;
                   Inventory.quantity := 1 |}
       end;
     Inventory.ProductForm_rejected data files p :=
       {| Inventory.company := Inventory.company p;
          Inventory.item_name := Inventory.item_name p;
          Inventory.category := get_default data "category" (Inventory.category p);
          Inventory.cost_price := Inventory.cost_price p;
          Inventory.quantity := Inventory.quantity p |} |}.

Definition product (c : Z) (name cat : string) (cost qty : Z) : Inventory.Product :=
  {| Inventory.company := c; Inventory.item_name := name;
     Inventory.category := cat; Inventory.cost_price := cost;
     Inventory.quantity := qty |}.

Definition widget := product 1 "Widget" "Hardware" 250 4.
Definition sprocket := product 1 "Sprocket" "Widgets" 100 0.
Definition gadget := product 1 "Gadget" "Tools" 500 2.
Definition rival := product 2 "Widget Pro" "Hardware" 900 7.

(** Three products of company 1 and one of company 2. *)
Definition stock : gmap Z Inventory.Product :=
  <[1 := widget]> (<[2 := sprocket]> (<[3 := gadget]> (<[4 := rival]> ∅))).

Definition owner1 : UserProfile :=
  {| AccountsModels.company := 1; AccountsModels.role := "business_owner" |}.
Definition staff1 : UserProfile :=
  {| AccountsModels.company := 1; AccountsModels.role := "staff" |}.

Definition get_request (query : list (string * string))
    (profile : option UserProfile) : HttpRequest :=
  {| method := "GET"; GET := list_to_map query; POST := ∅; FILES := ∅;
     userprofile := profile |}.

Definition post_request (fields : list (string * string))
    (profile : option UserProfile) : HttpRequest :=
  {| method := "POST"; GET := ∅; POST := list_to_map fields; FILES := ∅;
     userprofile := profile |}.

(** Alice logging in with her password, and with a wrong one. *)
Definition login_alice : HttpRequest :=
  form_request [("username", "alice"); ("password", "correct horse")].

Definition login_alice_wrong : HttpRequest :=
  form_request [("username", "alice"); ("password", "battery staple")].

(** Bob, freshly registered through [signup_ok], logging in. *)
Definition login_bob : HttpRequest :=
  form_request [("username", "bob"); ("password", "s3cretpass")].

(** A profile of company 1 whose role string is neither of the two the
    application knows. *)
Definition manager1 : UserProfile :=
  {| AccountsModels.company := 1; AccountsModels.role := "manager" |}.

End Fixtures.

(** ** Properties of the registration view *)
Module AccountsProofs.
Import Accounts.

Lemma username_exists_spec name users :
  username_exists name users = true ↔ ∃ u, u ∈ users ∧ username u = name.
Proof.
  unfold username_exists. rewrite existsb_exists. split.
  - intros (u & Hin & Hu). exists u. split; [by apply list_elem_of_In|].
    by apply bool_decide_eq_true in Hu.
  - intros (u & Hin & Hu). exists u. split; [by apply list_elem_of_In|].
    by apply bool_decide_eq_true.
Qed.

Lemma username_exists_false name users :
  username_exists name users = false ↔ ∀ u, u ∈ users → username u ≠ name.
Proof.
  rewrite <- not_true_iff_false, username_exists_spec. naive_solver.
Qed.

(** The splits of [check_order] around one of its elements. *)
Lemma check_order_split before e after :
  check_order = before ++ e :: after →
  (before = [] ∧ e = DuplicateUsername) ∨
  (before = [DuplicateUsername] ∧ e = PasswordTooShort) ∨
  (before = [DuplicateUsername; PasswordTooShort] ∧ e = PasswordMismatch).
Proof.
  unfold check_order. intros Heq.
  destruct before as [|a [|b [|c before]]]; inversion Heq; subst; auto.
  destruct before; discriminate.
Qed.

Lemma length_lt_8 (p : string) :
  (Z.of_nat (len p) <? 8) = true ↔ (len p < 8)%nat.
Proof. rewrite Z.ltb_lt. lia. Qed.

(** The characters of a string are at most its bytes, and a string written
    in ASCII has as many of the one as of the other. *)
Lemma len_le_length (p : string) : (len p ≤ String.length p)%nat.
Proof.
  induction p as [|c p IH]; simpl; [lia|].
  destruct (is_continuation_byte c); lia.
Qed.

(** What the view does on a POST whose [password1] field is present, by
    cases in the order of the source. *)
Lemma register_view_post {uni : Unicode} request users p1 :
  method request = "POST" →
  POST request !! "password1" = Some p1 →
  register_view request users =
    if username_exists (POST request !! "username") users then
      (Returns (rejected (error_notice DuplicateUsername)), users)
    else if (Z.of_nat (len p1) <? 8) then
      (Returns (rejected (error_notice PasswordTooShort)), users)
    else if bool_decide (Some p1 ≠ POST request !! "password2") then
      (Returns (rejected (error_notice PasswordMismatch)), users)
    else
      create_and_redirect (POST request !! "username") p1 users.
Proof.
  intros Hm Hp1. unfold register_view. rewrite Hp1.
  destruct (decide (method request = "POST")); [|done]. reflexivity.
Qed.

(** The last step stores the row when [create_user] accepts the username. *)
Lemma create_and_redirect_ok {uni : Unicode} n raw users :
  n ≠ "" →
  (∀ u, u ∈ users → username u ≠ Some (normalize_username n)) →
  create_and_redirect (Some n) raw users =
    (Returns accepted, users ++ [new_user (normalize_username n) raw]).
Proof.
  intros Hn Hfree. unfold create_and_redirect, create_user.
  rewrite decide_False by done.
  by rewrite (proj2 (username_exists_false _ _) Hfree).
Qed.

(** The last step either stores one row, for a non-empty username whose
    normal form is not stored, or raises and stores nothing. *)
Lemma create_and_redirect_inv {uni : Unicode} name raw users out users' :
  create_and_redirect name raw users = (out, users') →
  (out = Returns accepted ∧
   ∃ n, name = Some n ∧ n ≠ "" ∧
        (∀ u, u ∈ users → username u ≠ Some (normalize_username n)) ∧
        users' = users ++ [new_user (normalize_username n) raw]) ∨
  ((out = Raises ValueError ∨ out = Raises IntegrityError) ∧ users' = users).
Proof.
  unfold create_and_redirect, create_user.
  destruct name as [n|]; [|intros [= <- <-]; right; auto].
  destruct (decide (n = "")); [intros [= <- <-]; right; auto|].
  destruct (username_exists _ users) eqn:Hex; [intros [= <- <-]; right; auto|].
  intros [= <- <-]. left. split; [done|]. exists n.
  split; [done|]. split; [done|].
  split; [exact (proj1 (username_exists_false _ _) Hex)|done].
Qed.

(** The checks on a POST whose [password1] field is present: the first
    one that fails, in the order of [check_order], decides the answer, and
    when none fails the view goes on to create the account. *)
Lemma register_view_first_failing {uni : Unicode} request users p1 :
  method request = "POST" →
  POST request !! "password1" = Some p1 →
  let name := POST request !! "username" in
  let p2 := POST request !! "password2" in
  (∀ e, first_failing e users name p1 p2 →
     register_view request users = (Returns (rejected (error_notice e)), users)) ∧
  (all_checks_pass users name p1 p2 →
     register_view request users = create_and_redirect name p1 users) ∧
  ((∃ e, first_failing e users name p1 p2) ∨ all_checks_pass users name p1 p2).
Proof.
  intros Hm Hp1 name p2. rewrite (register_view_post _ _ _ Hm Hp1).
  fold name p2.
  destruct (username_exists name users) eqn:Hdup.
  { apply username_exists_spec in Hdup. split; [|split].
    - intros e (before & after & Hsplit & Hv & Hbefore).
      apply check_order_split in Hsplit as [[-> ->]|[[-> ->]|[-> ->]]]; [done| |];
        exfalso; apply (Hbefore DuplicateUsername); [set_solver|done|set_solver|done].
    - intros Hall. exfalso. apply (Hall DuplicateUsername); [|done].
      unfold check_order. set_solver.
    - left. exists DuplicateUsername, [], [PasswordTooShort; PasswordMismatch].
      split; [done|]. split; [done|]. intros e' He'. set_solver. }
  assert (Hnodup : ¬ violates DuplicateUsername users name p1 p2).
  { intros (u & Hin & Hu).
    by apply (proj1 (username_exists_false name users) Hdup u). }
  destruct (Z.of_nat (len p1) <? 8) eqn:Hshort.
  { apply length_lt_8 in Hshort. split; [|split].
    - intros e (before & after & Hsplit & Hv & Hbefore).
      apply check_order_split in Hsplit as [[-> ->]|[[-> ->]|[-> ->]]];
        [done|done|].
      exfalso. apply (Hbefore PasswordTooShort); [set_solver|done].
    - intros Hall. exfalso. apply (Hall PasswordTooShort); [|done].
      unfold check_order. set_solver.
    - left. exists PasswordTooShort, [DuplicateUsername], [PasswordMismatch].
      split; [done|]. split; [done|]. intros e' He'.
      apply list_elem_of_singleton in He' as ->. done. }
  assert (Hlong : ¬ violates PasswordTooShort users name p1 p2).
  { simpl. apply Z.ltb_ge in Hshort. lia. }
  destruct (bool_decide (Some p1 ≠ p2)) eqn:Hmis.
  { apply bool_decide_eq_true in Hmis. split; [|split].
    - intros e (before & after & Hsplit & Hv & Hbefore).
      by apply check_order_split in Hsplit as [[-> ->]|[[-> ->]|[-> ->]]].
    - intros Hall. exfalso. apply (Hall PasswordMismatch); [|simpl; congruence].
      unfold check_order. set_solver.
    - left. exists PasswordMismatch, [DuplicateUsername; PasswordTooShort], [].
      split; [done|]. split; [simpl; congruence|]. intros e' He'.
      apply elem_of_cons in He' as [->|He']; [done|].
      apply list_elem_of_singleton in He' as ->. done. }
  apply bool_decide_eq_false in Hmis.
  assert (Hsame : ¬ violates PasswordMismatch users name p1 p2).
  { simpl. intros Hne. apply Hmis. congruence. }
  split; [|split].
  - intros e (before & after & Hsplit & Hv & Hbefore). exfalso.
    by apply check_order_split in Hsplit as [[-> ->]|[[-> ->]|[-> ->]]].
  - done.
  - right. intros [] _; done.
Qed.

(** Whatever the request, the view either answers with the success notice
    and has stored exactly one account, or has stored none. *)
Lemma register_view_count {uni : Unicode} request users out users' :
  register_view request users = (out, users') →
  (out = Returns accepted ∧ length users' = S (length users)) ∨
  (out ≠ Returns accepted ∧ users' = users).
Proof.
  unfold register_view.
  destruct (decide (method request = "POST")); [|intros [= <- <-]; by right].
  destruct (username_exists _ users); [intros [= <- <-]; by right|].
  destruct (POST request !! "password1") as [p1|]; [|intros [= <- <-]; by right].
  destruct (Z.of_nat (len p1) <? 8); [intros [= <- <-]; by right|].
  destruct (bool_decide _); [intros [= <- <-]; by right|].
  intros Hlast.
  apply create_and_redirect_inv in Hlast
    as [(-> & n & _ & _ & _ & ->)|([-> | ->] & ->)]; [left|by right|by right].
  split; [done|]. rewrite length_app. simpl. lia.
Qed.

(** C5, as the view has it: on a registration POST the checks run in the
    order duplicate username, password shorter than 8 characters,
    passwords differ. The first check that fails decides the one error
    notice of the answer and the account table stays as it was; one of the
    two cases, a first failing check or all three passing, always applies.
    When all three pass and the username is not empty and its normalised
    form is not stored yet, exactly one account, under the normalised
    username, is appended. A taken username is reported before the
    passwords are looked at, and whatever the input, a call that does not
    answer with the success notice creates no account. *)
Theorem register_view_checks_in_order {uni : Unicode} request users :
  method request = "POST" →
  let name := POST request !! "username" in
  let p2 := POST request !! "password2" in
  (∀ p1, POST request !! "password1" = Some p1 →
     (∀ e, first_failing e users name p1 p2 →
        register_view request users =
          (Returns (rejected (error_notice e)), users) ∧
        notices (rejected (error_notice e)) = [notice error (error_notice e)]) ∧
     (all_checks_pass users name p1 p2 →
        ∀ n, name = Some n → n ≠ "" →
          (∀ u, u ∈ users → username u ≠ Some (normalize_username n)) →
          register_view request users =
            (Returns accepted, users ++ [new_user (normalize_username n) p1])) ∧
     ((∃ e, first_failing e users name p1 p2) ∨
      all_checks_pass users name p1 p2)) ∧
  ((∃ u, u ∈ users ∧ username u = name) →
     register_view request users =
       (Returns (rejected (error_notice DuplicateUsername)), users)) ∧
  (∀ out users', register_view request users = (out, users') →
     (out = Returns accepted ∧ length users' = S (length users)) ∨
     (out ≠ Returns accepted ∧ users' = users)).
Proof.
  intros Hm name p2. split; [|split].
  - intros p1 Hp1.
    destruct (register_view_first_failing request users p1 Hm Hp1)
      as (Hfail & Hpass & Hcases).
    split; [|split]; [| |done].
    + intros e He. split; [by apply Hfail|done].
    + intros Hall n Hn Hne Hfree. rewrite (Hpass Hall). fold name.
      rewrite Hn. by apply create_and_redirect_ok.
  - intros Hdup. apply username_exists_spec in Hdup.
    unfold register_view. fold name. rewrite Hdup.
    by destruct (decide (method request = "POST")).
  - intros out users'. apply register_view_count.
Qed.

(** The all-wrong submission is answered with the duplicate-username
    notice alone, the first check in the order; a password of seven
    characters is too short although it takes eight bytes; the well-formed
    submission appends the account. *)
Lemma register_view_checks_in_order_witness :
  register_view (uni := Fixtures.unicode) Fixtures.signup_all_wrong
    [Fixtures.alice] =
    (Returns (rejected "Username already exists. Please choose another."),
     [Fixtures.alice]) ∧
  register_view (uni := Fixtures.unicode) Fixtures.signup_seven_characters
    [Fixtures.alice] =
    (Returns (rejected "Password must be at least 8 characters long."),
     [Fixtures.alice]) ∧
  register_view (uni := Fixtures.unicode) Fixtures.signup_ok [Fixtures.alice] =
    (Returns accepted, [Fixtures.alice; new_user "bob" "s3cretpass"]).
Proof.
  split; [|split].
  - destruct (register_view_checks_in_order (uni := Fixtures.unicode)
                Fixtures.signup_all_wrong [Fixtures.alice] eq_refl)
      as (Hsubmitted & _ & _).
    destruct (Hsubmitted "short" eq_refl) as (Hfail & _ & _).
    apply (Hfail DuplicateUsername).
    exists [], [PasswordTooShort; PasswordMismatch].
    split; [reflexivity|]. split.
    + exists Fixtures.alice. split; [apply list_elem_of_here|reflexivity].
    + intros e' He'. inversion He'.
  - destruct (register_view_checks_in_order (uni := Fixtures.unicode)
                Fixtures.signup_seven_characters [Fixtures.alice] eq_refl)
      as (Hsubmitted & _ & _).
    destruct (Hsubmitted "pässwrd" eq_refl) as (Hfail & _ & _).
    apply (Hfail PasswordTooShort).
    exists [DuplicateUsername], [PasswordMismatch].
    split; [reflexivity|]. split; [vm_compute; lia|].
    intros e' He'. apply list_elem_of_singleton in He' as ->.
    intros (u & Hu & Hname).
    apply list_elem_of_singleton in Hu. subst u. discriminate Hname.
  - destruct (register_view_checks_in_order (uni := Fixtures.unicode)
                Fixtures.signup_ok [Fixtures.alice] eq_refl)
      as (Hsubmitted & _ & _).
    destruct (Hsubmitted "s3cretpass" eq_refl) as (_ & Hok & _).
    apply (Hok ltac:(intros [] _; simpl;
                       [intros (u & Hu & Hname);
                        apply list_elem_of_singleton in Hu; subst u;
                        discriminate Hname
                       |vm_compute; lia
                       |intros Hne; apply Hne; reflexivity])
             "bob" eq_refl).
    + discriminate.
    + intros u Hu. apply list_elem_of_singleton in Hu. subst u. discriminate.
Defined.

(** C5 as the specification words it fails: a submission with an empty
    username passes all three checks, yet no account is created, for
    [create_user] raises; the same happens for a username whose normalised
    form is stored already. *)
Lemma register_view_all_pass_none_created :
  all_checks_pass [Fixtures.alice] (Some "") "s3cretpass" (Some "s3cretpass") ∧
  register_view (uni := Fixtures.unicode) Fixtures.signup_empty_username
    [Fixtures.alice] = (Raises ValueError, [Fixtures.alice]) ∧
  all_checks_pass [Fixtures.fiona] (Some "ﬁona") "s3cretpass"
    (Some "s3cretpass") ∧
  register_view (uni := Fixtures.unicode) Fixtures.signup_ligature
    [Fixtures.fiona] = (Raises IntegrityError, [Fixtures.fiona]).
Proof.
  split; [|split; [reflexivity|split; [|reflexivity]]].
  - intros [] _; simpl.
    + intros (u & Hu & Hname).
      apply list_elem_of_singleton in Hu. subst u. discriminate Hname.
    + vm_compute. lia.
    + intros Hne. by apply Hne.
  - intros [] _; simpl.
    + intros (u & Hu & Hname).
      apply list_elem_of_singleton in Hu. subst u. discriminate Hname.
    + vm_compute. lia.
    + intros Hne. by apply Hne.
Qed.

(** C10: a POST whose [password1] field is absent and whose username is
    not taken makes the view raise at the length check: no response is
    returned, so the view is not total on untrusted input. *)
Theorem register_view_raises_without_password1 {uni : Unicode} request users :
  method request = "POST" →
  POST request !! "password1" = None →
  (∀ u, u ∈ users → username u ≠ POST request !! "username") →
  register_view request users = (Raises TypeError, users) ∧
  ∀ r, (register_view request users).1 ≠ Returns r.
Proof.
  intros Hm Hp1 Hfree. apply username_exists_false in Hfree.
  unfold register_view. rewrite Hp1, Hfree.
  destruct (decide (method request = "POST")); [|done].
  split; [done|]. intros r. discriminate.
Qed.

Lemma register_view_raises_without_password1_witness :
  register_view (uni := Fixtures.unicode) Fixtures.signup_no_password1
    [Fixtures.alice] = (Raises TypeError, [Fixtures.alice]).
Proof.
  apply (register_view_raises_without_password1 (uni := Fixtures.unicode)
           Fixtures.signup_no_password1 [Fixtures.alice] eq_refl eq_refl).
  intros u Hu. apply list_elem_of_singleton in Hu. subst u. discriminate.
Defined.

(** *** Further properties of registration and login *)

Lemma find_username_Some name users u :
  List.find (λ u, bool_decide (username u = name)) users = Some u →
  u ∈ users ∧ username u = name.
Proof.
  intros Hfind. apply find_some in Hfind as [Hin Hname].
  split; [by apply list_elem_of_In|by apply bool_decide_eq_true in Hname].
Qed.

Lemma find_username_None name users :
  List.find (λ u, bool_decide (username u = name)) users = None →
  ∀ u, u ∈ users → username u ≠ name.
Proof.
  intros Hfind u Hu Hname.
  pose proof (find_none _ _ Hfind u (proj1 (list_elem_of_In _ _) Hu)) as Hf.
  simpl in Hf. by rewrite bool_decide_eq_false in Hf.
Qed.

Lemma find_username_appended name users v :
  (∀ u, u ∈ users → username u ≠ name) → username v = name →
  List.find (λ u, bool_decide (username u = name)) (users ++ [v]) = Some v.
Proof.
  intros Hfresh Hv. induction users as [|u users IH]; simpl.
  - by rewrite bool_decide_eq_true_2.
  - rewrite bool_decide_eq_false_2 by (apply Hfresh; left).
    apply IH. intros u' Hu'. apply Hfresh. by right.
Qed.

(** X1: the login view binds the session to an account only on a POST
    that names a stored account and carries the password of its stored
    credential; the answer is then the welcome notice with the redirect to
    the dashboard. *)
Theorem login_view_session_sound request users r u :
  login_view request users = (r, Some u) →
  method request = "POST" ∧ u ∈ users ∧
  username u = POST request !! "username" ∧ is_Some (username u) ∧
  (∃ raw, POST request !! "password" = Some raw ∧ password u = Hashed raw) ∧
  r = welcome (username u).
Proof.
  unfold login_view. destruct (decide (method request = "POST")); [|done].
  destruct (negb _); [done|].
  unfold authenticate.
  destruct (POST request !! "username") as [name|] eqn:Hname; [|done].
  destruct (POST request !! "password") as [raw|]; [|done].
  destruct (List.find _ users) as [v|] eqn:Hfind; [|done].
  apply find_username_Some in Hfind as [Hin Hv].
  destruct (password v) as [stored] eqn:Hstored. simpl.
  case_bool_decide as Hraw; [|done]. intros [= <- <-].
  split; [done|]. split; [done|]. split; [done|].
  split; [by rewrite Hv|]. split; [|by rewrite Hv].
  exists raw. split; [done|]. by rewrite Hstored, Hraw.
Qed.

Lemma login_view_session_sound_witness :
  Fixtures.alice ∈ [Fixtures.alice] ∧
  ∃ raw, POST Fixtures.login_alice !! "password" = Some raw ∧
         password Fixtures.alice = Hashed raw.
Proof.
  destruct (login_view_session_sound Fixtures.login_alice [Fixtures.alice]
              (welcome (Some "alice")) Fixtures.alice eq_refl)
    as (_ & Hin & _ & _ & Hraw & _).
  exact (conj Hin Hraw).
Defined.

(** X2: on a POST the login view looks the username up before it looks at
    the password. An unknown username is answered with the
    username-does-not-exist notice whatever the password; a known one
    whose accounts do not carry the submitted password (or with no password
    submitted) is answered with the invalid-credentials notice. Neither
    binds a session. *)
Theorem login_view_rejections request users :
  method request = "POST" →
  let name := POST request !! "username" in
  ((∀ u, u ∈ users → username u ≠ name) →
     login_view request users =
       ({| notices := [notice error "Username does not exist."];
           body := redirect "accounts:login" |}, None)) ∧
  ((∃ u, u ∈ users ∧ username u = name) →
   (∀ u raw, u ∈ users → username u = name →
      POST request !! "password" = Some raw → password u ≠ Hashed raw) →
     login_view request users =
       ({| notices := [notice error "Invalid username or password."];
           body := redirect "accounts:login" |}, None)).
Proof.
  intros Hm name. unfold login_view. fold name.
  destruct (decide (method request = "POST")); [|done]. split.
  - intros Hfresh. by rewrite (proj2 (username_exists_false _ _) Hfresh).
  - intros Hknown Hwrong.
    rewrite (proj2 (username_exists_spec _ _) Hknown). simpl. unfold authenticate.
    destruct name as [n|] eqn:Hname; [|done].
    destruct (POST request !! "password") as [raw|]; [|done].
    destruct (List.find _ users) as [v|] eqn:Hfind; [|done].
    apply find_username_Some in Hfind as [Hin Hv].
    specialize (Hwrong v raw Hin Hv eq_refl).
    destruct (password v) as [stored]. simpl.
    case_bool_decide; [congruence|done].
Qed.

Lemma login_view_rejections_witness :
  login_view Fixtures.login_bob [Fixtures.alice] =
    ({| notices := [notice error "Username does not exist."];
        body := redirect "accounts:login" |}, None) ∧
  login_view Fixtures.login_alice_wrong [Fixtures.alice] =
    ({| notices := [notice error "Invalid username or password."];
        body := redirect "accounts:login" |}, None).
Proof.
  split.
  - apply (login_view_rejections Fixtures.login_bob [Fixtures.alice] eq_refl).
    intros u Hu. apply list_elem_of_singleton in Hu as ->. discriminate.
  - apply (login_view_rejections Fixtures.login_alice_wrong [Fixtures.alice] eq_refl).
    + exists Fixtures.alice. split; [apply list_elem_of_here|reflexivity].
    + intros u raw Hu _ [= <-].
      apply list_elem_of_singleton in Hu as ->. discriminate.
Defined.

(** X3: an account made by a successful registration can log in at once
    under the username as stored: a login POST with the normalised form of
    the submitted username and the registered password is answered with
    the welcome notice and binds the session to the new account, the last
    row of the table. *)
Theorem register_then_login {uni : Unicode} request users users' name
    login_request :
  register_view request users = (Returns accepted, users') →
  POST request !! "username" = Some name →
  method login_request = "POST" →
  POST login_request !! "username" = Some (normalize_username name) →
  POST login_request !! "password" = POST request !! "password1" →
  ∃ user,
    login_view login_request users' =
      (welcome (Some (normalize_username name)), Some user) ∧
    users' = users ++ [user] ∧
    username user = Some (normalize_username name).
Proof.
  intros Hreg Hname Hm Hlname Hlpw. unfold register_view in Hreg.
  rewrite Hname in Hreg.
  destruct (decide (method request = "POST")); [|done].
  destruct (username_exists (Some name) users); [done|].
  destruct (POST request !! "password1") as [p1|]; [|done].
  destruct (Z.of_nat (len p1) <? 8); [done|].
  case_bool_decide; [done|].
  apply create_and_redirect_inv in Hreg
    as [(_ & n & [= <-] & _ & Hfresh & ->)|([[=]|[=]] & _)].
  set (stored := normalize_username name) in *.
  exists (new_user stored p1). split; [|done].
  unfold login_view. rewrite Hlname, Hlpw, decide_True by done.
  assert (Hex : username_exists (Some stored)
                  (users ++ [new_user stored p1]) = true).
  { apply username_exists_spec. exists (new_user stored p1).
    split; [|done]. apply elem_of_app. right. apply list_elem_of_here. }
  rewrite Hex. simpl.
  rewrite (find_username_appended (Some stored) users
             (new_user stored p1) Hfresh eq_refl). simpl.
  by rewrite bool_decide_eq_true_2.
Qed.

Lemma register_then_login_witness :
  ∃ user,
    login_view Fixtures.login_bob
      [Fixtures.alice; new_user "bob" "s3cretpass"] =
      (welcome (Some "bob"), Some user) ∧
    username user = Some "bob".
Proof.
  destruct (register_then_login (uni := Fixtures.unicode)
              Fixtures.signup_ok [Fixtures.alice]
              [Fixtures.alice; new_user "bob" "s3cretpass"]
              "bob" Fixtures.login_bob eq_refl eq_refl eq_refl eq_refl eq_refl)
    as (user & Hlogin & _ & Huser).
  exists user. by split.
Defined.

(** X4: registration never touches the accounts already stored and never
    stores a second account under a username in use: the old table is a
    prefix of the new one, and a table without repeated usernames stays
    so, for every request. *)
Theorem register_view_keeps_usernames_unique {uni : Unicode} request users :
  NoDup (username <$> users) →
  users `prefix_of` (register_view request users).2 ∧
  NoDup (username <$> (register_view request users).2).
Proof.
  intros Hnd.
  destruct (register_view request users) as [out users'] eqn:Hreg. simpl.
  unfold register_view in Hreg.
  destruct (decide (method request = "POST")); [|by injection Hreg as <- <-].
  destruct (username_exists _ users); [by injection Hreg as <- <-|].
  destruct (POST request !! "password1") as [p1|]; [|by injection Hreg as <- <-].
  destruct (_ <? 8); [by injection Hreg as <- <-|].
  destruct (bool_decide _); [by injection Hreg as <- <-|].
  apply create_and_redirect_inv in Hreg
    as [(_ & n & _ & _ & Hfresh & ->)|(_ & ->)]; [|done].
  split; [by apply prefix_app_r|].
  rewrite fmap_app. apply NoDup_app. split; [done|]. split.
  - intros name Hname Hnew. apply list_elem_of_singleton in Hnew.
    apply list_elem_of_fmap in Hname as (u & Hu & Hin).
    apply (Hfresh u Hin). rewrite <- Hu, Hnew. reflexivity.
  - apply NoDup_singleton.
Qed.

Lemma register_view_keeps_usernames_unique_witness :
  NoDup (username <$> (register_view (uni := Fixtures.unicode)
                         Fixtures.signup_ligature [Fixtures.fiona]).2).
Proof.
  apply (register_view_keeps_usernames_unique (uni := Fixtures.unicode)
           Fixtures.signup_ligature [Fixtures.fiona]).
  apply NoDup_singleton.
Defined.

(** X5: registration stores an account only when every check passed and
    [create_user] accepted the username: if the table changed, the request
    was a POST whose username is not empty and is not stored, neither as
    submitted nor in its normalised form, and whose two password fields
    agree on a password of at least 8 characters; the one new row holds
    the normalised username and that password. *)
Theorem register_view_created_sound {uni : Unicode} request users :
  (register_view request users).2 ≠ users →
  ∃ n p1,
    method request = "POST" ∧
    POST request !! "username" = Some n ∧ n ≠ "" ∧
    POST request !! "password1" = Some p1 ∧
    POST request !! "password2" = Some p1 ∧
    (8 ≤ len p1)%nat ∧
    (∀ u, u ∈ users → username u ≠ Some n) ∧
    (∀ u, u ∈ users → username u ≠ Some (normalize_username n)) ∧
    register_view request users =
      (Returns accepted, users ++ [new_user (normalize_username n) p1]).
Proof.
  destruct (register_view request users) as [out users'] eqn:Hreg. simpl.
  unfold register_view in Hreg.
  destruct (decide (method request = "POST")); [|by injection Hreg as <- <-].
  destruct (username_exists _ users) eqn:Hdup; [by injection Hreg as <- <-|].
  destruct (POST request !! "password1") as [p1|]; [|by injection Hreg as <- <-].
  destruct (_ <? 8) eqn:Hlen; [by injection Hreg as <- <-|].
  case_bool_decide as Hsame; [by injection Hreg as <- <-|].
  apply create_and_redirect_inv in Hreg
    as [(-> & n & Hn & Hne & Hfresh & ->)|(_ & ->)]; [|done].
  intros _. exists n, p1. apply Z.ltb_ge in Hlen. rewrite Hn in Hdup.
  split; [done|]. split; [done|]. split; [done|]. split; [done|].
  split; [done|]. split; [lia|].
  split; [exact (proj1 (username_exists_false _ _) Hdup)|done].
Qed.

Lemma register_view_created_sound_witness :
  ∃ n p1, POST Fixtures.signup_ok !! "username" = Some n ∧
          POST Fixtures.signup_ok !! "password2" = Some p1 ∧
          (8 ≤ len p1)%nat.
Proof.
  destruct (register_view_created_sound (uni := Fixtures.unicode)
              Fixtures.signup_ok [Fixtures.alice])
    as (n & p1 & _ & Hn & _ & _ & Hp2 & Hlen & _).
  - vm_compute. discriminate.
  - exists n, p1. by repeat split.
Defined.

(** X21: when the three checks pass the view can still fail: for an
    absent or empty username [create_user] raises [ValueError], and for a
    username whose normalised form is already stored the insert raises
    [IntegrityError]. The exception escapes the view, no response is
    returned and the account table is as it was. *)
Theorem register_view_create_user_raises {uni : Unicode} request users p1 :
  method request = "POST" →
  POST request !! "password1" = Some p1 →
  all_checks_pass users (POST request !! "username") p1
    (POST request !! "password2") →
  (POST request !! "username" = None ∨ POST request !! "username" = Some "" →
     register_view request users = (Raises ValueError, users)) ∧
  (∀ n u, POST request !! "username" = Some n → n ≠ "" →
     u ∈ users → username u = Some (normalize_username n) →
     register_view request users = (Raises IntegrityError, users)).
Proof.
  intros Hm Hp1 Hall.
  destruct (register_view_first_failing request users p1 Hm Hp1)
    as (_ & Hpass & _).
  rewrite (Hpass Hall). unfold create_and_redirect, create_user. split.
  - by intros [-> | ->].
  - intros n u -> Hne Hu Hname. rewrite decide_False by done.
    by rewrite (proj2 (username_exists_spec _ _) (ex_intro _ u (conj Hu Hname))).
Qed.

Lemma register_view_create_user_raises_witness :
  register_view (uni := Fixtures.unicode) Fixtures.signup_ligature
    [Fixtures.fiona] = (Raises IntegrityError, [Fixtures.fiona]).
Proof.
  assert (Hall : all_checks_pass [Fixtures.fiona] (Some "ﬁona") "s3cretpass"
                   (Some "s3cretpass")).
  { intros [] _; simpl.
    - intros (u & Hu & Hname).
      apply list_elem_of_singleton in Hu. subst u. discriminate Hname.
    - vm_compute. lia.
    - intros Hne. by apply Hne. }
  destruct (register_view_create_user_raises (uni := Fixtures.unicode)
              Fixtures.signup_ligature [Fixtures.fiona] "s3cretpass"
              eq_refl eq_refl Hall) as [_ Hcollision].
  apply (Hcollision "ﬁona" Fixtures.fiona eq_refl);
    [discriminate|apply list_elem_of_here|reflexivity].
Defined.

End AccountsProofs.

(** ** Properties of the inventory views *)
Module InventoryProofs.
Import Inventory.

(** *** Strings *)

Lemma append_cons a (s1 s2 : string) :
  String a s1 +:+ s2 = String a (s1 +:+ s2).
Proof. reflexivity. Qed.

Lemma prefix_spec (n h : string) :
  String.prefix n h = true ↔ ∃ post, h = n +:+ post.
Proof.
  revert h. induction n as [|a n IH]; intros h.
  - destruct h; simpl; split; eauto.
  - setoid_rewrite append_cons. destruct h as [|b h]; simpl.
    + split; [discriminate|]. intros (post & Hpost). discriminate.
    + destruct (Ascii.ascii_dec a b) as [->|Hne].
      * rewrite IH. split; intros (post & Hpost); exists post; congruence.
      * split; [discriminate|]. intros (post & Hpost). congruence.
Qed.

Lemma occurs_nil (n : string) : occurs n "" = String.prefix n "".
Proof. unfold occurs. apply orb_false_r. Qed.

Lemma occurs_cons (n : string) c (h : string) :
  occurs n (String c h) = String.prefix n (String c h) || occurs n h.
Proof. reflexivity. Qed.

Lemma occurs_spec (n h : string) :
  occurs n h = true ↔ ∃ pre post, h = pre +:+ n +:+ post.
Proof.
  induction h as [|c h IH].
  - rewrite occurs_nil, prefix_spec. split.
    + intros (post & Hpost). by exists "", post.
    + intros (pre & post & Hh). destruct pre; [by exists post|discriminate].
  - rewrite occurs_cons, orb_true_iff, prefix_spec, IH. split.
    + intros [(post & Hpost)|(pre & post & Hh)].
      * by exists "", post.
      * exists (String c pre), post. rewrite append_cons. by rewrite Hh.
    + intros (pre & post & Hh). destruct pre as [|c' pre].
      * left. by exists post.
      * right. exists pre, post. rewrite append_cons in Hh. congruence.
Qed.

Lemma icontains_spec (field q : string) :
  icontains field q = true ↔ contains_ci q field.
Proof. apply occurs_spec. Qed.

(** The example of the specification: ["wid"] matches the name
    ["Widget"] and the category ["Widgets"], and neither the name
    ["Gadget"] nor the category ["Tools"]. *)
Example icontains_wid :
  icontains "Widget" "wid" = true ∧ icontains "Widgets" "wid" = true ∧
  icontains "Gadget" "wid" = false ∧ icontains "Tools" "wid" = false.
Proof. repeat split; reflexivity. Qed.

(** *** Tables and querysets *)

Lemma objects_get_Some pk c (t : Table) p :
  objects_get pk c t = Some p ↔ t !! pk = Some p ∧ company p = c.
Proof.
  unfold objects_get. destruct (t !! pk) as [p'|]; [|naive_solver].
  destruct (decide (company p' = c)); naive_solver.
Qed.

Lemma objects_get_None pk c (t : Table) :
  objects_get pk c t = None ↔ ∀ p, t !! pk = Some p → company p ≠ c.
Proof.
  unfold objects_get. destruct (t !! pk) as [p'|]; [|naive_solver].
  destruct (decide (company p' = c)); naive_solver.
Qed.

Lemma lookup_filter_company c (t : Table) pk :
  filter_company c t !! pk =
    p ← t !! pk; if decide (company p = c) then Some p else None.
Proof.
  unfold filter_company. rewrite map_lookup_filter.
  destruct (t !! pk) as [p|]; simpl; [|done].
  unfold guard. simpl. by destruct (decide (company p = c)).
Qed.

Lemma objects_get_filter_company pk c (t : Table) :
  objects_get pk c (filter_company c t) = objects_get pk c t.
Proof.
  unfold objects_get. rewrite lookup_filter_company.
  destruct (t !! pk) as [p|]; simpl; [|done].
  destruct (decide (company p = c)) as [Hc|Hc]; [|done].
  by rewrite decide_True.
Qed.

Lemma filter_company_idemp c (t : Table) :
  filter_company c (filter_company c t) = filter_company c t.
Proof.
  apply map_eq. intros pk. rewrite !lookup_filter_company.
  destruct (t !! pk) as [p|]; simpl; [|done].
  destruct (decide (company p = c)) as [Hc|Hc]; simpl; [|done].
  by rewrite decide_True.
Qed.

Lemma objects_get_delete_foreign pk c (t : Table) p :
  t !! pk = Some p → company p ≠ c →
  objects_get pk c t = None ∧ objects_get pk c (delete pk t) = None.
Proof.
  intros Hp Hc. split; apply objects_get_None; intros p'.
  - rewrite Hp. congruence.
  - by rewrite lookup_delete_eq.
Qed.

Lemma le_foldr_max (l : list Z) k : k ∈ l → k ≤ foldr Z.max 0 l.
Proof.
  induction l as [|x l IH]; intros Hk; [by apply not_elem_of_nil in Hk|].
  simpl. apply elem_of_cons in Hk as [->|Hk]; [lia|].
  specialize (IH Hk). lia.
Qed.

Lemma next_pk_fresh (t : Table) : t !! next_pk t = None.
Proof.
  destruct (t !! next_pk t) as [p|] eqn:Hp; [|done]. exfalso.
  apply elem_of_map_to_list in Hp.
  assert (Hk : next_pk t ∈ (map_to_list t).*1).
  { apply list_elem_of_fmap. by exists (next_pk t, p). }
  apply le_foldr_max in Hk. unfold next_pk in Hk at 1. lia.
Qed.

(** *** Totals *)

Lemma foldl_total_value (l : list Instance) a :
  foldl (λ acc r, acc + total_value r.2) a l = a + value_sum l.
Proof.
  revert a. induction l as [|r l IH]; intros a; simpl; [lia|].
  rewrite IH. unfold total_value. lia.
Qed.

Lemma sum_total_value_value_sum (l : list Instance) :
  sum_total_value l = value_sum l.
Proof. unfold sum_total_value. by rewrite foldl_total_value. Qed.

Lemma value_sum_Permutation (l1 l2 : list Instance) :
  l1 ≡ₚ l2 → value_sum l1 = value_sum l2.
Proof.
  induction 1 as [|r l1 l2 _ IH|r1 r2 l|l1 l2 l3 _ IH1 _ IH2]; simpl; lia.
Qed.

(** *** Evaluating a queryset *)

Lemma evaluate_Permutation cf (t : Table) : evaluate cf t ≡ₚ map_to_list t.
Proof.
  unfold evaluate. repeat case_decide; auto using merge_sort_Permutation.
Qed.

Lemma elem_of_evaluate cf (t : Table) (r : Instance) :
  r ∈ evaluate cf t ↔ t !! r.1 = Some r.2.
Proof. by rewrite evaluate_Permutation, elem_of_map_to_list'. Qed.

Lemma NoDup_evaluate cf (t : Table) : NoDup (evaluate cf t).
Proof. rewrite evaluate_Permutation. apply NoDup_map_to_list. Qed.

Lemma cost_le_total : Total cost_le.
Proof. intros a b. unfold cost_le. lia. Qed.

Lemma cost_ge_total : Total cost_ge.
Proof. intros a b. unfold cost_ge. lia. Qed.

(** ["low"] lists by ascending and ["high"] by descending cost price. *)
Lemma evaluate_Sorted (t : Table) :
  Sorted cost_le (evaluate "low" t) ∧ Sorted cost_ge (evaluate "high" t).
Proof.
  unfold evaluate. simpl. split.
  - apply (Sorted_merge_sort _ (Total0 := cost_le_total)).
  - apply (Sorted_merge_sort _ (Total0 := cost_ge_total)).
Qed.

Lemma lookup_selected c q (t : Table) (r : Instance) :
  selected c q t !! r.1 = Some r.2 ↔ visible c q t r.
Proof.
  destruct r as [pk p]. unfold selected, visible, filter_search. simpl.
  case_decide as Hq.
  - rewrite lookup_filter_company. destruct (t !! pk) as [p'|]; simpl.
    + destruct (decide (company p' = c)); naive_solver.
    + naive_solver.
  - rewrite map_lookup_filter_Some, lookup_filter_company. simpl.
    rewrite orb_true_iff, !icontains_spec.
    destruct (t !! pk) as [p'|]; simpl.
    + destruct (decide (company p' = c)); naive_solver.
    + naive_solver.
Qed.

(** *** The listing *)

(** The listing of a resolved profile, in one piece. *)
Lemma inventory_list_resolved request profile (t : Table) :
  userprofile request = Some profile →
  let q := get_default (GET request) "search" "" in
  let cf := get_default (GET request) "cost_filter" "" in
  let products := evaluate cf (selected (AccountsModels.company profile) q t) in
  inventory_list request t =
    respond [] (render (list_template profile)
      (ListContext products q cf profile (sum_total_value products))).
Proof.
  intros Hprofile. unfold inventory_list, list_template, selected.
  rewrite Hprofile. simpl.
  destruct (decide (get_default (GET request) "search" "" = ""));
    by destruct (is_owner profile).
Qed.





(** *** Writes stay inside the company *)

Lemma own_write_foreign c (t t' : Table) pk p :
  own_write c t t' → t !! pk = Some p → company p ≠ c → t' !! pk = Some p.
Proof.
  intros Hw Hp Hc. destruct Hw as [|pk' p0 p' Hp0 Hc0|pk' p' Hnone _|pk' p0 Hp0 Hc0];
    [done|..].
  - rewrite lookup_insert_ne; [done|]. intros ->. congruence.
  - rewrite lookup_insert_ne; [done|]. intros ->. congruence.
  - rewrite lookup_delete_ne; [done|]. intros ->. congruence.
Qed.

Lemma own_write_changed c (t t' : Table) pk :
  own_write c t t' → t' !! pk ≠ t !! pk →
  (∃ p, t !! pk = Some p ∧ company p = c) ∨
  (t !! pk = None ∧ ∃ p', t' !! pk = Some p' ∧ company p' = c).
Proof.
  intros Hw Hne. destruct Hw as [|pk' p0 p' Hp0 Hc0|pk' p' Hnone Hc'|pk' p0 Hp0 Hc0];
    [done|..]; destruct (decide (pk' = pk)) as [->|Hpk].
  - left. eauto.
  - by rewrite lookup_insert_ne in Hne.
  - right. split; [done|]. exists p'. by rewrite lookup_insert_eq.
  - by rewrite lookup_insert_ne in Hne.
  - left. eauto.
  - by rewrite lookup_delete_ne in Hne.
Qed.

Section Views.
Context {ext : Externals}.

Lemma run_own_write op request profile (t : Table) :
  userprofile request = Some profile →
  own_write (AccountsModels.company profile) t (run op request t).2.
Proof.
  intros Hprofile. set (c := AccountsModels.company profile).
  destruct op as [|pk| |pk|pk|pk]; simpl.
  - apply write_none.
  - unfold product_detail. rewrite Hprofile. fold c.
    destruct (objects_get pk c t) as [p|] eqn:Hget; [|apply write_none].
    apply objects_get_Some in Hget as [Hp Hc].
    repeat (case_match; simpl; try apply write_none).
    by eapply write_update.
  - unfold product_add. rewrite Hprofile. fold c.
    repeat (case_match; simpl; try apply write_none).
    apply write_insert; [apply next_pk_fresh|done].
  - unfold increase_stock. rewrite Hprofile. fold c. case_decide; [|apply write_none].
    destruct (objects_get pk c t) as [p|] eqn:Hget; [|apply write_none].
    apply objects_get_Some in Hget as [Hp Hc]. simpl. by eapply write_update.
  - unfold decrease_stock. rewrite Hprofile. fold c. case_decide; [|apply write_none].
    destruct (objects_get pk c t) as [p|] eqn:Hget; [|apply write_none].
    apply objects_get_Some in Hget as [Hp Hc]. case_decide; simpl; [|apply write_none].
    by eapply write_update.
  - unfold product_delete. rewrite Hprofile. fold c.
    destruct (objects_get pk c t) as [p|] eqn:Hget; [|apply write_none].
    apply objects_get_Some in Hget as [Hp Hc].
    repeat (case_match; simpl; try apply write_none).
    by eapply write_delete.
Qed.

(** What an operation answers depends on the table only through the
    lookups [objects_get] at the profile's company and the company's
    queryset. *)
Lemma run_response_scoped op request profile (t1 t2 : Table) :
  userprofile request = Some profile →
  let c := AccountsModels.company profile in
  filter_company c t1 = filter_company c t2 →
  (∀ pk, objects_get pk c t1 = objects_get pk c t2) →
  (run op request t1).1 = (run op request t2).1.
Proof.
  intros Hprofile c Hfilter Hget.
  destruct op as [|pk| |pk|pk|pk]; simpl.
  - rewrite !(inventory_list_resolved _ _ _ Hprofile). simpl.
    unfold selected. fold c. by rewrite Hfilter.
  - unfold product_detail. rewrite Hprofile. fold c. rewrite (Hget pk).
    by repeat (case_match; simpl).
  - unfold product_add. rewrite Hprofile.
    by repeat (case_match; simpl).
  - unfold increase_stock. rewrite Hprofile. fold c. rewrite (Hget pk).
    by repeat (case_match; simpl).
  - unfold decrease_stock. rewrite Hprofile. fold c. rewrite (Hget pk).
    by repeat (case_match; simpl).
  - unfold product_delete. rewrite Hprofile. fold c. rewrite (Hget pk).
    by repeat (case_match; simpl).
Qed.

(** Without a row to act on, an operation aimed at a key leaves the
    table alone. *)
Lemma run_missing_target op request profile pk (t : Table) :
  userprofile request = Some profile →
  target op = Some pk →
  objects_get pk (AccountsModels.company profile) t = None →
  (run op request t).2 = t.
Proof.
  intros Hprofile Htarget Hget.
  destruct op as [|pk'| |pk'|pk'|pk']; simplify_eq/=.
  - unfold product_detail. by rewrite Hprofile, Hget.
  - unfold increase_stock. rewrite Hprofile, Hget. by case_decide.
  - unfold decrease_stock. rewrite Hprofile, Hget. by case_decide.
  - unfold product_delete. by rewrite Hprofile, Hget.
Qed.

Lemma filter_company_delete_foreign c pk p (t : Table) :
  t !! pk = Some p → company p ≠ c →
  filter_company c (delete pk t) = filter_company c t.
Proof.
  intros Hp Hc. apply map_eq. intros k. rewrite !lookup_filter_company.
  destruct (decide (k = pk)) as [->|Hk].
  - rewrite lookup_delete_eq, Hp. simpl. by rewrite decide_False.
  - by rewrite lookup_delete_ne.
Qed.

Lemma objects_get_delete_other c pk pk' p (t : Table) :
  t !! pk = Some p → company p ≠ c →
  objects_get pk' c (delete pk t) = objects_get pk' c t.
Proof.
  intros Hp Hc. unfold objects_get. destruct (decide (pk' = pk)) as [->|Hk].
  - rewrite lookup_delete_eq, Hp. by rewrite decide_False.
  - by rewrite lookup_delete_ne.
Qed.

(** C1: whatever the operation and the acting profile, the answer is
    the one the operation gives on the company's own rows alone, every
    row of another company is in the table afterwards as it was before,
    a row that did change was the company's own or is a new row
    attached to it, and an operation aimed at the key of another
    company's product answers as if that row were not in the table and
    writes nothing. *)
Theorem tenant_isolation op request profile (t : Table) :
  userprofile request = Some profile →
  let c := AccountsModels.company profile in
  (run op request t).1 = (run op request (filter_company c t)).1 ∧
  (∀ pk p, t !! pk = Some p → company p ≠ c →
     (run op request t).2 !! pk = Some p) ∧
  (∀ pk, (run op request t).2 !! pk ≠ t !! pk →
     (∃ p, t !! pk = Some p ∧ company p = c) ∨
     (t !! pk = None ∧
      ∃ p', (run op request t).2 !! pk = Some p' ∧ company p' = c)) ∧
  (∀ pk p, target op = Some pk → t !! pk = Some p → company p ≠ c →
     run op request t = ((run op request (delete pk t)).1, t) ∧
     (run op request (delete pk t)).2 = delete pk t).
Proof.
  intros Hprofile c. pose proof (run_own_write op _ _ t Hprofile) as Hw.
  fold c in Hw. split; [|split; [|split]].
  - apply (run_response_scoped op request profile); [done| |]; fold c.
    + by rewrite filter_company_idemp.
    + intros pk. by rewrite objects_get_filter_company.
  - intros pk p Hp Hc. by eapply own_write_foreign.
  - intros pk Hne. by eapply own_write_changed.
  - intros pk p Htarget Hp Hc.
    destruct (objects_get_delete_foreign pk c t p Hp Hc) as [Hnone Hnone'].
    split.
    + rewrite (surjective_pairing (run op request t)). f_equal.
      * apply (run_response_scoped op request profile); [done| |]; fold c.
        -- symmetry. by eapply filter_company_delete_foreign.
        -- intros pk'. symmetry. by eapply objects_get_delete_other.
      * by apply (run_missing_target op request profile pk).
    + by apply (run_missing_target op request profile pk).
Qed.

(** *** Stock changes *)

Lemma set_quantity_id p : set_quantity (quantity p) p = p.
Proof. by destruct p. Qed.

Lemma set_quantity_twice a b p :
  set_quantity a (set_quantity b p) = set_quantity a p.
Proof. done. Qed.

Lemma increase_stock_own request profile pk p (t : Table) :
  method request = "POST" → userprofile request = Some profile →
  t !! pk = Some p → company p = AccountsModels.company profile →
  increase_stock request pk t =
    (respond [] (stock_json (set_quantity (quantity p + 1) p)),
     <[pk := set_quantity (quantity p + 1) p]> t).
Proof.
  intros Hm Hprofile Hp Hc. unfold increase_stock.
  rewrite Hprofile, decide_True by done.
  by rewrite (proj2 (objects_get_Some pk _ t p) (conj Hp Hc)).
Qed.

Lemma decrease_stock_own request profile pk p (t : Table) :
  method request = "POST" → userprofile request = Some profile →
  t !! pk = Some p → company p = AccountsModels.company profile →
  let q' := if decide (quantity p > 0) then quantity p - 1 else quantity p in
  decrease_stock request pk t =
    (respond [] (stock_json (set_quantity q' p)), <[pk := set_quantity q' p]> t).
Proof.
  intros Hm Hprofile Hp Hc. unfold decrease_stock.
  rewrite Hprofile, decide_True by done.
  rewrite (proj2 (objects_get_Some pk _ t p) (conj Hp Hc)). simpl.
  case_decide; [done|]. by rewrite set_quantity_id, insert_id.
Qed.

(** C2: a POST to [decrease_stock] on a product of the profile's
    company answers [success: true] with the new quantity and stores
    it; the new quantity is one less when the old one is positive and
    stays 0 when it is 0, so a quantity that is not negative never
    becomes negative. *)
Theorem decrease_stock_floor request profile pk p (t : Table) :
  method request = "POST" → userprofile request = Some profile →
  t !! pk = Some p → company p = AccountsModels.company profile →
  ∃ q',
    decrease_stock request pk t =
      (respond []
         (JsonResponse
            (JsonOk q' (get_display_quantity (set_quantity q' p))
               (cost_price p * q'))),
       <[pk := set_quantity q' p]> t) ∧
    (quantity p > 0 → q' = quantity p - 1) ∧
    (quantity p = 0 → q' = 0) ∧
    (0 ≤ quantity p → 0 ≤ q').
Proof.
  intros Hm Hprofile Hp Hc.
  exists (if decide (quantity p > 0) then quantity p - 1 else quantity p).
  split; [by apply (decrease_stock_own request profile)|].
  case_decide; repeat split; lia.
Qed.

Lemma calls_increase request profile pk n : ∀ p (t : Table),
  method request = "POST" → userprofile request = Some profile →
  t !! pk = Some p → company p = AccountsModels.company profile →
  (calls increase_stock request pk n t).2 =
    <[pk := set_quantity (quantity p + Z.of_nat n) p]> t ∧
  Forall succeeded (calls increase_stock request pk n t).1 ∧
  length (calls increase_stock request pk n t).1 = n.
Proof.
  induction n as [|n IH]; intros p t Hm Hprofile Hp Hc.
  - simpl. rewrite Z.add_0_r, set_quantity_id, insert_id by done. done.
  - cbn [calls]. rewrite (increase_stock_own _ _ _ _ _ Hm Hprofile Hp Hc).
    destruct (IH (set_quantity (quantity p + 1) p)
                (<[pk := set_quantity (quantity p + 1) p]> t) Hm Hprofile)
      as (Ht & Hok & Hlen); [apply lookup_insert_eq|done|].
    destruct (calls increase_stock request pk n _) as [rs t'']. simpl in *.
    split; [|split].
    + rewrite Ht, insert_insert_eq. f_equal.
      unfold set_quantity. simpl. f_equal. lia.
    + constructor; [|done]. by eexists _, _, _.
    + by rewrite Hlen.
Qed.

Lemma calls_decrease request profile pk n : ∀ p (t : Table),
  method request = "POST" → userprofile request = Some profile →
  t !! pk = Some p → company p = AccountsModels.company profile →
  Z.of_nat n ≤ quantity p →
  (calls decrease_stock request pk n t).2 =
    <[pk := set_quantity (quantity p - Z.of_nat n) p]> t ∧
  Forall succeeded (calls decrease_stock request pk n t).1 ∧
  length (calls decrease_stock request pk n t).1 = n.
Proof.
  induction n as [|n IH]; intros p t Hm Hprofile Hp Hc Hn.
  - simpl. rewrite Z.sub_0_r, set_quantity_id, insert_id by done. done.
  - cbn [calls]. rewrite (decrease_stock_own _ _ _ _ _ Hm Hprofile Hp Hc).
    rewrite decide_True by lia.
    destruct (IH (set_quantity (quantity p - 1) p)
                (<[pk := set_quantity (quantity p - 1) p]> t) Hm Hprofile)
      as (Ht & Hok & Hlen); [apply lookup_insert_eq|done|simpl; lia|].
    destruct (calls decrease_stock request pk n _) as [rs t'']. simpl in *.
    split; [|split].
    + rewrite Ht, insert_insert_eq. f_equal.
      unfold set_quantity. simpl. f_equal. lia.
    + constructor; [|done]. by eexists _, _, _.
    + by rewrite Hlen.
Qed.

(** C7: on a product of the profile's company whose quantity is not
    negative, [n] increments in a row, each answered with success and
    adding one, followed by [n] decrements, each answered with success,
    give back the table they started from, the product's quantity
    included. *)
Theorem stock_round_trip request profile pk p (t : Table) (n : nat) :
  method request = "POST" → userprofile request = Some profile →
  t !! pk = Some p → company p = AccountsModels.company profile →
  0 ≤ quantity p →
  let up := calls increase_stock request pk n t in
  let down := calls decrease_stock request pk n up.2 in
  up.2 !! pk = Some (set_quantity (quantity p + Z.of_nat n) p) ∧
  down.2 = t ∧
  quantity <$> down.2 !! pk = Some (quantity p) ∧
  Forall succeeded (up.1 ++ down.1) ∧
  length up.1 = n ∧ length down.1 = n.
Proof.
  intros Hm Hprofile Hp Hc Hq up down.
  destruct (calls_increase request profile pk n p t Hm Hprofile Hp Hc)
    as (Hup & Hup_ok & Hup_len). fold up in Hup, Hup_ok, Hup_len.
  assert (Hp' : up.2 !! pk = Some (set_quantity (quantity p + Z.of_nat n) p)).
  { rewrite Hup. apply lookup_insert_eq. }
  destruct (calls_decrease request profile pk n _ up.2 Hm Hprofile Hp')
    as (Hdown & Hdown_ok & Hdown_len); [done|simpl; lia|].
  fold down in Hdown, Hdown_ok, Hdown_len.
  assert (Ht : down.2 = t).
  { rewrite Hdown, Hup, insert_insert_eq, set_quantity_twice. simpl.
    replace (quantity p + Z.of_nat n - Z.of_nat n) with (quantity p) by lia.
    by rewrite set_quantity_id, insert_id. }
  split; [done|]. split; [done|]. split; [by rewrite Ht, Hp|].
  split; [by apply Forall_app|done].
Qed.

(** *** Roles *)

Lemma staff_not_owner profile :
  AccountsModels.role profile = "staff" → is_owner profile = false.
Proof. intros Hrole. unfold is_owner. by rewrite Hrole. Qed.

(** C4: for a profile with role staff and a product of its own
    company, a POST to the detail view and any request to the delete
    view answer with the access-denied notice and a redirect to the
    list and leave the table as it was; the same profile is served the
    list and the detail page, its valid add creates the product, and
    its stock changes go through. *)
Theorem staff_cannot_edit_or_delete request profile pk p (t : Table) :
  userprofile request = Some profile →
  AccountsModels.role profile = "staff" →
  t !! pk = Some p → company p = AccountsModels.company profile →
  let c := AccountsModels.company profile in
  (method request = "POST" →
     product_detail request pk t =
       (respond
          [notice error "Access denied. Only business owners can edit products."]
          (redirect "inventory_list"), t)) ∧
  product_delete request pk t =
    (respond
       [notice error "Access denied. Only business owners can delete products."]
       (redirect "inventory_list"), t) ∧
  (∃ products q cf total,
     inventory_list request t =
       respond [] (render "inventory/inventory_list_staff.html"
                     (ListContext products q cf profile total)) ∧
     (q = "" → (pk, p) ∈ products)) ∧
  (method request ≠ "POST" →
     product_detail request pk t =
       (respond [] (render "inventory/product_detail_staff.html"
                      (DetailContext (UnboundForm (Some p)) (pk, p) profile)), t)) ∧
  (method request = "POST" →
     ∀ p0, ProductForm_clean (POST request) (FILES request) None = Some p0 →
       body (product_add request t).1 = redirect "inventory_list" ∧
       (product_add request t).2 = <[next_pk t := set_company c p0]> t ∧
       t !! next_pk t = None) ∧
  (method request = "POST" →
     succeeded (increase_stock request pk t).1 ∧
     (increase_stock request pk t).2 =
       <[pk := set_quantity (quantity p + 1) p]> t) ∧
  (method request = "POST" → succeeded (decrease_stock request pk t).1).
Proof.
  intros Hprofile Hrole Hp Hc c. subst c.
  pose proof (staff_not_owner _ Hrole) as Hstaff.
  pose proof (proj2 (objects_get_Some pk _ t p) (conj Hp Hc)) as Hget.
  repeat apply conj.
  - intros Hm. unfold product_detail.
    rewrite Hprofile, Hget, decide_True, Hstaff by done. done.
  - unfold product_delete. rewrite Hprofile, Hget, Hstaff. done.
  - eexists _, _, _, _. split.
    + rewrite (inventory_list_resolved _ _ _ Hprofile).
      unfold list_template. by rewrite Hstaff.
    + intros Hq. apply elem_of_evaluate, lookup_selected.
      split; [done|]. split; [done|]. by left.
  - intros Hm. unfold product_detail.
    rewrite Hprofile, Hget, decide_False, Hstaff by done. done.
  - intros Hm p0 Hform. unfold product_add.
    rewrite Hprofile, decide_True, Hform by done.
    split; [done|]. split; [done|]. apply next_pk_fresh.
  - intros Hm. rewrite (increase_stock_own _ _ _ _ _ Hm Hprofile Hp Hc).
    split; [|done]. by eexists _, _, _.
  - intros Hm.
    rewrite (decrease_stock_own _ _ _ _ _ Hm Hprofile Hp Hc).
    by eexists _, _, _.
Qed.

(** C6: when a POST to the add view passes validation, one new row is
    stored under a key not in use; its company is the company of the
    acting profile and its other fields are those of the form, whatever
    company the submitted data gave the form's instance. *)
Theorem product_add_company request profile (t : Table) p0 :
  userprofile request = Some profile →
  method request = "POST" →
  ProductForm_clean (POST request) (FILES request) None = Some p0 →
  ∃ pk created,
    t !! pk = None ∧
    (product_add request t).2 = <[pk := created]> t ∧
    company created = AccountsModels.company profile ∧
    created = set_company (AccountsModels.company profile) p0 ∧
    (∀ pk' p', (product_add request t).2 !! pk' = Some p' →
       t !! pk' = Some p' ∨ company p' = AccountsModels.company profile).
Proof.
  intros Hprofile Hm Hform.
  exists (next_pk t), (set_company (AccountsModels.company profile) p0).
  unfold product_add. rewrite Hprofile, decide_True, Hform by done. simpl.
  split; [apply next_pk_fresh|]. repeat (split; [done|]).
  intros pk' p'. destruct (decide (next_pk t = pk')) as [<-|Hne].
  - rewrite lookup_insert_eq. intros [= <-]. by right.
  - rewrite lookup_insert_ne by done. by left.
Qed.

(** C3, as the views have it: without a profile no operation shows
    inventory data or writes to the table. The list, detail (and edit)
    and add views answer with the profile-not-found notice and a
    redirect to the dashboard; the two stock endpoints answer with a
    JSON failure and no redirect; the delete view answers with the
    product-not-found notice and a redirect to the list. *)
Theorem profile_missing_handling op request (t : Table) :
  userprofile request = None →
  (run op request t).2 = t ∧
  shows_inventory (run op request t).1 = false ∧
  match op with
  | OpList | OpDetail _ | OpAdd =>
      (run op request t).1 =
        respond [notice error "User profile not found."] (redirect "dashboard") ∧
      fails_with_profile_missing (run op request t).1
  | OpIncrease _ | OpDecrease _ =>
      (run op request t).1 =
        respond []
          (JsonResponse
             (JsonFail (if decide (method request = "POST")
                        then "Product not found" else "Invalid request")))
  | OpDelete _ =>
      (run op request t).1 =
        respond [notice error "Product not found."] (redirect "inventory_list")
  end.
Proof.
  intros Hprofile. destruct op as [|pk| |pk|pk|pk]; simpl.
  - unfold inventory_list. rewrite Hprofile.
    repeat split. by exists "dashboard".
  - unfold product_detail. rewrite Hprofile.
    repeat split. by exists "dashboard".
  - unfold product_add. rewrite Hprofile.
    repeat split. by exists "dashboard".
  - unfold increase_stock. rewrite Hprofile. by case_decide.
  - unfold decrease_stock. rewrite Hprofile. by case_decide.
  - unfold product_delete. by rewrite Hprofile.
Qed.

End Views.

(** The owner of company 1 aims each operation at product 4, which
    belongs to company 2: the answers are those for an unknown key and
    the table is untouched. *)
Lemma tenant_isolation_witness :
  run (ext := Fixtures.externals) (OpDelete 4)
    (Fixtures.post_request [] (Some Fixtures.owner1)) Fixtures.stock =
    (respond [notice error "Product not found."] (redirect "inventory_list"),
     Fixtures.stock) ∧
  run (ext := Fixtures.externals) (OpIncrease 4)
    (Fixtures.post_request [] (Some Fixtures.owner1)) Fixtures.stock =
    (respond [] (JsonResponse (JsonFail "Product not found")), Fixtures.stock).
Proof.
  split.
  - destruct (tenant_isolation (ext := Fixtures.externals) (OpDelete 4)
                (Fixtures.post_request [] (Some Fixtures.owner1))
                Fixtures.owner1 Fixtures.stock eq_refl) as (_ & _ & _ & Hforeign).
    destruct (Hforeign 4 Fixtures.rival eq_refl eq_refl) as [-> _];
      [by vm_compute|]. reflexivity.
  - destruct (tenant_isolation (ext := Fixtures.externals) (OpIncrease 4)
                (Fixtures.post_request [] (Some Fixtures.owner1))
                Fixtures.owner1 Fixtures.stock eq_refl) as (_ & _ & _ & Hforeign).
    destruct (Hforeign 4 Fixtures.rival eq_refl eq_refl) as [-> _];
      [by vm_compute|]. reflexivity.
Defined.

(** Decrementing the sprocket, which is out of stock, is answered with
    success and quantity 0. *)
Lemma decrease_stock_floor_witness :
  (decrease_stock (ext := Fixtures.externals)
     (Fixtures.post_request [] (Some Fixtures.staff1)) 2 Fixtures.stock).1 =
    respond [] (JsonResponse (JsonOk 0 "out of stock" 0)).
Proof.
  destruct (decrease_stock_floor (ext := Fixtures.externals)
              (Fixtures.post_request [] (Some Fixtures.staff1))
              Fixtures.staff1 2 Fixtures.sprocket Fixtures.stock
              eq_refl eq_refl eq_refl eq_refl) as (q' & Heq & _ & Hzero & _).
  rewrite Heq, (Hzero eq_refl). reflexivity.
Defined.

(** Three increments and three decrements of the widget. *)
Lemma stock_round_trip_witness :
  (calls (decrease_stock (ext := Fixtures.externals))
     (Fixtures.post_request [] (Some Fixtures.staff1)) 1 3
     (calls (increase_stock (ext := Fixtures.externals))
        (Fixtures.post_request [] (Some Fixtures.staff1)) 1 3
        Fixtures.stock).2).2 = Fixtures.stock.
Proof.
  apply (stock_round_trip (ext := Fixtures.externals)
           (Fixtures.post_request [] (Some Fixtures.staff1))
           Fixtures.staff1 1 Fixtures.widget Fixtures.stock 3
           eq_refl eq_refl eq_refl eq_refl).
  by vm_compute.
Defined.

(** Staff of company 1 posting to the detail view of the widget. *)
Lemma staff_cannot_edit_or_delete_witness :
  product_detail (ext := Fixtures.externals)
    (Fixtures.post_request [("item_name", "Renamed")] (Some Fixtures.staff1))
    1 Fixtures.stock =
    (respond
       [notice error "Access denied. Only business owners can edit products."]
       (redirect "inventory_list"), Fixtures.stock).
Proof.
  destruct (staff_cannot_edit_or_delete (ext := Fixtures.externals)
              (Fixtures.post_request [("item_name", "Renamed")]
                 (Some Fixtures.staff1))
              Fixtures.staff1 1 Fixtures.widget Fixtures.stock
              eq_refl eq_refl eq_refl eq_refl) as (Hedit & _).
  apply Hedit. reflexivity.
Defined.

(** Staff of company 1 submits a product with the company field set to
    company 2: the stored row belongs to company 1. *)
Lemma product_add_company_witness :
  ∃ pk,
    Fixtures.stock !! pk = None ∧
    (product_add (ext := Fixtures.externals)
       (Fixtures.post_request [("item_name", "Bolt"); ("company", "2")]
          (Some Fixtures.staff1))
       Fixtures.stock).2 =
      <[pk := Fixtures.product 1 "Bolt" "" 250 1]> Fixtures.stock.
Proof.
  destruct (product_add_company (ext := Fixtures.externals)
              (Fixtures.post_request [("item_name", "Bolt"); ("company", "2")]
                 (Some Fixtures.staff1))
              Fixtures.staff1 Fixtures.stock
              (Fixtures.product 2 "Bolt" "" 250 1) eq_refl eq_refl eq_refl)
    as (pk & created & Hfresh & Hstored & _ & Hcreated & _).
  exists pk. split; [exact Hfresh|]. rewrite Hstored, Hcreated. reflexivity.
Defined.

(** Without a profile the list view sends the user to the dashboard. *)
Lemma profile_missing_handling_witness :
  run (ext := Fixtures.externals) OpList (Fixtures.get_request [] None)
    Fixtures.stock =
    (respond [notice error "User profile not found."] (redirect "dashboard"),
     Fixtures.stock).
Proof.
  destruct (profile_missing_handling (ext := Fixtures.externals) OpList
              (Fixtures.get_request [] None) Fixtures.stock eq_refl)
    as (Ht & _ & Hr & _).
  rewrite (surjective_pairing (run _ _ _)). by rewrite Ht, Hr.
Defined.

(** C3 as the specification words it fails: without a profile the
    increment endpoint and the delete view do not answer with the
    profile-not-found notice, and the increment endpoint does not
    redirect at all. *)
Lemma profile_missing_not_uniform :
  ¬ fails_with_profile_missing
      (run (ext := Fixtures.externals) (OpIncrease 1)
         (Fixtures.post_request [] None) Fixtures.stock).1 ∧
  ¬ fails_with_profile_missing
      (run (ext := Fixtures.externals) (OpDelete 1)
         (Fixtures.post_request [] None) Fixtures.stock).1.
Proof.
  split; intros [Hnotice _]; vm_compute in Hnotice; discriminate Hnotice.
Qed.

(** *** Further properties: roles, missing products, edit and delete *)

Section MoreViews.
Context {ext : Externals}.

Lemma not_owner profile :
  AccountsModels.role profile ≠ "business_owner" → is_owner profile = false.
Proof. intros Hrole. unfold is_owner. by rewrite bool_decide_eq_false_2. Qed.

Lemma is_owner_true profile :
  AccountsModels.role profile = "business_owner" → is_owner profile = true.
Proof. intros Hrole. unfold is_owner. by rewrite bool_decide_eq_true_2. Qed.

(** X6: the role gate compares against the one string
    ["business_owner"]: a profile with any other role string, not only
    ["staff"], gets the access-denied notice and a redirect to the list
    from a POST to the detail view and from any request to the delete view
    of a product of its company, and nothing is written. *)
Theorem non_owner_denied request profile pk p (t : Table) :
  userprofile request = Some profile →
  AccountsModels.role profile ≠ "business_owner" →
  t !! pk = Some p → company p = AccountsModels.company profile →
  (method request = "POST" →
     product_detail request pk t =
       (respond
          [notice error "Access denied. Only business owners can edit products."]
          (redirect "inventory_list"), t)) ∧
  product_delete request pk t =
    (respond
       [notice error "Access denied. Only business owners can delete products."]
       (redirect "inventory_list"), t).
Proof.
  intros Hprofile Hrole Hp Hc.
  pose proof (not_owner _ Hrole) as Hno.
  pose proof (proj2 (objects_get_Some pk _ t p) (conj Hp Hc)) as Hget.
  split.
  - intros Hm. unfold product_detail.
    by rewrite Hprofile, Hget, decide_True, Hno.
  - unfold product_delete. by rewrite Hprofile, Hget, Hno.
Qed.

(** X7: the product is looked up before the role is: for a key under
    which the profile's company has no product, the detail view answers
    404 and the delete view answers with the product-not-found notice and a
    redirect to the list, for every role and every method, and the stock
    endpoints answer a POST with the JSON failure; nothing is written. *)
Theorem missing_product_before_role request profile pk (t : Table) :
  userprofile request = Some profile →
  (∀ p, t !! pk = Some p → company p ≠ AccountsModels.company profile) →
  product_detail request pk t = (respond [] Http404, t) ∧
  product_delete request pk t =
    (respond [notice error "Product not found."] (redirect "inventory_list"), t) ∧
  (method request = "POST" →
     increase_stock request pk t =
       (respond [] (JsonResponse (JsonFail "Product not found")), t) ∧
     decrease_stock request pk t =
       (respond [] (JsonResponse (JsonFail "Product not found")), t)).
Proof.
  intros Hprofile Hnone. apply objects_get_None in Hnone.
  split; [|split].
  - unfold product_detail. by rewrite Hprofile, Hnone.
  - unfold product_delete. by rewrite Hprofile, Hnone.
  - intros Hm. unfold increase_stock, decrease_stock.
    by rewrite Hprofile, Hnone, decide_True.
Qed.

(** X8: an owner's POST to the detail view of a product of the company
    either passes validation, and then the row under that key, and only
    that row, is replaced by the form's instance, the keys of the table
    stay the same and the notice names the new item name; or it fails
    validation, and then nothing is written, the stored row included, and
    the owner's detail page is shown again with the submitted form and
    with the instance as validation left it, not with the stored row. *)
Theorem owner_edit request profile pk p (t : Table) :
  userprofile request = Some profile →
  AccountsModels.role profile = "business_owner" →
  method request = "POST" →
  t !! pk = Some p → company p = AccountsModels.company profile →
  match ProductForm_clean (POST request) (FILES request) (Some p) with
  | Some p' =>
      product_detail request pk t =
        (respond
           [notice success
              ("Product " +:+ dquote +:+ item_name p' +:+ dquote
                 +:+ " updated successfully!")]
           (redirect "inventory_list"),
         <[pk := p']> t) ∧
      (product_detail request pk t).2 !! pk = Some p' ∧
      (∀ pk', pk' ≠ pk → (product_detail request pk t).2 !! pk' = t !! pk') ∧
      dom (product_detail request pk t).2 = dom t
  | None =>
      let shown := ProductForm_rejected (POST request) (FILES request) p in
      product_detail request pk t =
        (respond []
           (render "inventory/product_detail.html"
              (DetailContext
                 (BoundForm (POST request) (FILES request) (Some shown))
                 (pk, shown) profile)), t) ∧
      (product_detail request pk t).2 !! pk = Some p
  end.
Proof.
  intros Hprofile Hrole Hm Hp Hc.
  pose proof (is_owner_true _ Hrole) as Howner.
  pose proof (proj2 (objects_get_Some pk _ t p) (conj Hp Hc)) as Hget.
  unfold product_detail. rewrite Hprofile, Hget, decide_True, Howner by done.
  simpl. destruct (ProductForm_clean _ _ _) as [p'|]; simpl.
  - split; [done|]. split; [apply lookup_insert_eq|]. split.
    + intros pk' Hne. by rewrite lookup_insert_ne.
    + apply dom_insert_lookup_L. by rewrite Hp.
  - by split.
Qed.

(** X9: an owner's POST to the delete view of a product of the company
    removes that row and no other; the key is then unknown, so the same
    request repeated is answered with the product-not-found notice and
    changes nothing. Any other method shows the confirmation page and
    removes nothing. *)
Theorem owner_delete request profile pk p (t : Table) :
  userprofile request = Some profile →
  AccountsModels.role profile = "business_owner" →
  t !! pk = Some p → company p = AccountsModels.company profile →
  (method request = "POST" →
     product_delete request pk t =
       (respond
          [notice success
             ("Product " +:+ dquote +:+ item_name p +:+ dquote
                +:+ " deleted successfully!")]
          (redirect "inventory_list"),
        delete pk t) ∧
     (∀ pk', pk' ≠ pk → delete pk t !! pk' = t !! pk') ∧
     S (size (delete pk t)) = size t ∧
     product_delete request pk (delete pk t) =
       (respond [notice error "Product not found."] (redirect "inventory_list"),
        delete pk t)) ∧
  (method request ≠ "POST" →
     product_delete request pk t =
       (respond []
          (render "inventory/product_delete.html" (DeleteContext (pk, p) profile)),
        t)).
Proof.
  intros Hprofile Hrole Hp Hc.
  pose proof (is_owner_true _ Hrole) as Howner.
  pose proof (proj2 (objects_get_Some pk _ t p) (conj Hp Hc)) as Hget.
  split; intros Hm.
  - split; [|split; [|split]].
    + unfold product_delete. by rewrite Hprofile, Hget, Howner, decide_True.
    + intros pk' Hne. by rewrite lookup_delete_ne.
    + rewrite map_size_delete, Hp. simpl.
      assert (size t ≠ 0%nat); [|lia].
      intros Hsize. apply map_size_empty_iff in Hsize. by subst t.
    + unfold product_delete. rewrite Hprofile.
      assert (Hgone : objects_get pk (AccountsModels.company profile)
                        (delete pk t) = None).
      { apply objects_get_None. intros p'. by rewrite lookup_delete_eq. }
      by rewrite Hgone.
  - unfold product_delete. by rewrite Hprofile, Hget, Howner, decide_False.
Qed.

End MoreViews.

Lemma non_owner_denied_witness :
  product_delete
    (Fixtures.post_request [] (Some Fixtures.manager1)) 1 Fixtures.stock =
    (respond
       [notice error "Access denied. Only business owners can delete products."]
       (redirect "inventory_list"), Fixtures.stock).
Proof.
  apply (non_owner_denied (ext := Fixtures.externals)
           (Fixtures.post_request [] (Some Fixtures.manager1))
           Fixtures.manager1 1 Fixtures.widget Fixtures.stock eq_refl);
    [discriminate|reflexivity|reflexivity].
Defined.

(** Staff of company 1 asking for key 4 (company 2) and key 9 (unused). *)
Lemma missing_product_before_role_witness :
  product_detail (ext := Fixtures.externals)
    (Fixtures.post_request [] (Some Fixtures.staff1)) 4 Fixtures.stock =
    (respond [] Http404, Fixtures.stock) ∧
  product_delete
    (Fixtures.get_request [] (Some Fixtures.staff1)) 9 Fixtures.stock =
    (respond [notice error "Product not found."] (redirect "inventory_list"),
     Fixtures.stock).
Proof.
  split.
  - apply (missing_product_before_role (ext := Fixtures.externals)
             (Fixtures.post_request [] (Some Fixtures.staff1))
             Fixtures.staff1 4 Fixtures.stock eq_refl).
    intros p [= <-]. discriminate.
  - apply (missing_product_before_role (ext := Fixtures.externals)
             (Fixtures.get_request [] (Some Fixtures.staff1))
             Fixtures.staff1 9 Fixtures.stock eq_refl).
    intros p Hp. discriminate Hp.
Defined.

(** The owner of company 1 renames the widget; a submission without a
    name is rejected, the page showing the category it carried while the
    stored widget keeps its own. *)
Lemma owner_edit_witness :
  (product_detail (ext := Fixtures.externals)
     (Fixtures.post_request [("item_name", "Renamed")] (Some Fixtures.owner1))
     1 Fixtures.stock).2 !! 1 =
    Some (Fixtures.product 1 "Renamed" "" 250 1) ∧
  product_detail (ext := Fixtures.externals)
    (Fixtures.post_request [("category", "Toys")] (Some Fixtures.owner1))
    1 Fixtures.stock =
    (respond []
       (render "inventory/product_detail.html"
          (DetailContext
             (BoundForm (list_to_map [("category", "Toys")]) ∅
                (Some (Fixtures.product 1 "Widget" "Toys" 250 4)))
             (1, Fixtures.product 1 "Widget" "Toys" 250 4) Fixtures.owner1)),
     Fixtures.stock).
Proof.
  split.
  - pose proof (owner_edit (ext := Fixtures.externals)
                  (Fixtures.post_request [("item_name", "Renamed")]
                     (Some Fixtures.owner1))
                  Fixtures.owner1 1 Fixtures.widget Fixtures.stock
                  eq_refl eq_refl eq_refl eq_refl eq_refl) as Hedit.
    simpl in Hedit. destruct Hedit as (_ & Hstored & _). exact Hstored.
  - pose proof (owner_edit (ext := Fixtures.externals)
                  (Fixtures.post_request [("category", "Toys")]
                     (Some Fixtures.owner1))
                  Fixtures.owner1 1 Fixtures.widget Fixtures.stock
                  eq_refl eq_refl eq_refl eq_refl eq_refl) as Hedit.
    simpl in Hedit. destruct Hedit as [Hpage _]. exact Hpage.
Defined.

(** The owner of company 1 deletes the gadget. *)
Lemma owner_delete_witness :
  (product_delete
     (Fixtures.post_request [] (Some Fixtures.owner1)) 3 Fixtures.stock).2 =
    delete 3 Fixtures.stock.
Proof.
  destruct (owner_delete
              (Fixtures.post_request [] (Some Fixtures.owner1))
              Fixtures.owner1 3 Fixtures.gadget Fixtures.stock
              eq_refl eq_refl eq_refl eq_refl) as [Hpost _].
  destruct (Hpost eq_refl) as (Hdel & _). by rewrite Hdel.
Defined.

(** *** Further properties: stock endpoints and add *)

Section StockAndAdd.
Context {ext : Externals}.

(** The two stock endpoints, told apart by a flag. *)
Lemma stock_view_cases (up : bool) request pk (t : Table) :
  let view := if up then increase_stock else decrease_stock in
  (∃ e, view request pk t = (respond [] (JsonResponse (JsonFail e)), t)) ∨
  (∃ profile p q,
     method request = "POST" ∧ userprofile request = Some profile ∧
     t !! pk = Some p ∧ company p = AccountsModels.company profile ∧
     q = (if up then quantity p + 1
          else if decide (quantity p > 0) then quantity p - 1 else quantity p) ∧
     view request pk t =
       (respond [] (stock_json (set_quantity q p)), <[pk := set_quantity q p]> t)).
Proof.
  destruct (decide (method request = "POST")) as [Hm|Hm].
  2: { left. exists "Invalid request".
       destruct up; simpl; unfold increase_stock, decrease_stock;
         by rewrite decide_False. }
  destruct (userprofile request) as [profile|] eqn:Hprofile.
  2: { left. exists "Product not found".
       destruct up; simpl; unfold increase_stock, decrease_stock;
         by rewrite Hprofile, decide_True. }
  destruct (objects_get pk (AccountsModels.company profile) t) as [p|] eqn:Hget.
  2: { left. exists "Product not found".
       destruct up; simpl; unfold increase_stock, decrease_stock;
         by rewrite Hprofile, Hget, decide_True. }
  apply objects_get_Some in Hget as [Hp Hc]. right.
  exists profile, p. eexists. do 4 (split; [done|]). split; [done|].
  destruct up; simpl.
  - by apply (increase_stock_own request profile).
  - by apply (decrease_stock_own request profile).
Qed.

(** X10: whatever the request, a stock endpoint changes at most the
    quantity of the row under the key it was given: the table has the same
    keys afterwards, every other row is identical, and the targeted row
    keeps its company, name, category and cost price. *)
Theorem stock_endpoints_touch_quantity_only (up : bool) request pk (t : Table) :
  let view := if up then increase_stock else decrease_stock in
  dom (view request pk t).2 = dom t ∧
  ∀ pk' p', (view request pk t).2 !! pk' = Some p' →
    ∃ p, t !! pk' = Some p ∧ p' = set_quantity (quantity p') p ∧
         (pk' ≠ pk → p' = p).
Proof.
  intros view.
  destruct (stock_view_cases up request pk t)
    as [(e & Heq)|(profile & p & q & _ & _ & Hp & _ & _ & Heq)];
    fold view in Heq; rewrite Heq; simpl.
  - split; [done|]. intros pk' p' Hp'. exists p'.
    by rewrite set_quantity_id.
  - split; [apply dom_insert_lookup_L; by rewrite Hp|].
    intros pk' p' Hp'. destruct (decide (pk' = pk)) as [->|Hne].
    + rewrite lookup_insert_eq in Hp'. injection Hp' as <-.
      exists p. split; [done|]. split; [done|]. done.
    + rewrite lookup_insert_ne in Hp' by done. exists p'.
      split; [done|]. by rewrite set_quantity_id.
Qed.

(** X11: the answer of a stock endpoint agrees with the table it leaves.
    A success answer carries the quantity now stored under the key, its
    display text and cost price times that quantity; a failure answer
    comes with an unchanged table; no other answer and no notice is ever
    given. *)
Theorem stock_response_matches_store (up : bool) request pk (t : Table) :
  let view := if up then increase_stock else decrease_stock in
  notices (view request pk t).1 = [] ∧
  match body (view request pk t).1 with
  | JsonResponse (JsonOk q d v) =>
      ∃ p', (view request pk t).2 !! pk = Some p' ∧
        q = quantity p' ∧ d = get_display_quantity p' ∧
        v = cost_price p' * quantity p'
  | JsonResponse (JsonFail _) => (view request pk t).2 = t
  | _ => False
  end.
Proof.
  intros view.
  destruct (stock_view_cases up request pk t)
    as [(e & Heq)|(profile & p & q & _ & _ & Hp & _ & _ & Heq)];
    fold view in Heq; rewrite Heq; simpl; [done|].
  split; [done|]. exists (set_quantity q p).
  by rewrite lookup_insert_eq.
Qed.

(** X12: if the form never yields a negative quantity, no inventory
    operation makes a table without negative quantities have one. *)
Theorem quantities_stay_nonneg op request (t : Table) :
  (∀ data files instance p,
     ProductForm_clean data files instance = Some p → 0 ≤ quantity p) →
  nonneg t → nonneg (run op request t).2.
Proof.
  intros Hform Ht.
  assert (Hins : ∀ pk p, 0 ≤ quantity p → nonneg (<[pk := p]> t)).
  { intros pk p Hq pk' p'. destruct (decide (pk = pk')) as [->|Hne].
    - rewrite lookup_insert_eq. by intros [= <-].
    - rewrite lookup_insert_ne by done. apply Ht. }
  destruct op as [|pk| |pk|pk|pk]; simpl; [done|..].
  - unfold product_detail.
    repeat (case_match; simpl; try done). apply Hins. by eapply Hform.
  - unfold product_add.
    repeat (case_match; simpl; try done). apply Hins. simpl. by eapply Hform.
  - destruct (stock_view_cases true request pk t)
      as [(e & Heq)|(profile & p & q & _ & _ & Hp & _ & Hq & Heq)];
      simpl in Heq; rewrite Heq; simpl; [done|].
    apply Hins. simpl. specialize (Ht _ _ Hp). simpl in Hq. lia.
  - destruct (stock_view_cases false request pk t)
      as [(e & Heq)|(profile & p & q & _ & _ & Hp & _ & Hq & Heq)];
      simpl in Heq; rewrite Heq; simpl; [done|].
    apply Hins. simpl. specialize (Ht _ _ Hp). simpl in Hq.
    destruct (decide (quantity p > 0)); lia.
  - unfold product_delete.
    repeat (case_match; simpl; try done).
    intros pk' p'. rewrite lookup_delete_Some. intros [_ Hp']. by eapply Ht.
Qed.

(** X13: [n] POSTs to the increment endpoint on a product of the profile's
    company are all answered with success and leave its quantity larger by
    exactly [n], whatever it was, with every other row as before. *)
Theorem increase_stock_n request profile pk p (t : Table) (n : nat) :
  method request = "POST" → userprofile request = Some profile →
  t !! pk = Some p → company p = AccountsModels.company profile →
  let after := calls increase_stock request pk n t in
  after.2 !! pk = Some (set_quantity (quantity p + Z.of_nat n) p) ∧
  (∀ pk', pk' ≠ pk → after.2 !! pk' = t !! pk') ∧
  Forall succeeded after.1 ∧ length after.1 = n.
Proof.
  intros Hm Hprofile Hp Hc after.
  destruct (calls_increase request profile pk n p t Hm Hprofile Hp Hc)
    as (Ht & Hok & Hlen). fold after in Ht, Hok, Hlen. rewrite Ht.
  split; [apply lookup_insert_eq|]. split; [|done].
  intros pk' Hne. by rewrite lookup_insert_ne.
Qed.

(** X14: the decrement endpoint saturates at 0: [n] POSTs on a product of
    the profile's company whose quantity [q] is not negative are all
    answered with success and leave the quantity at [max 0 (q - n)], with
    every other row as before. *)
Theorem decrease_stock_n request profile pk (n : nat) : ∀ p (t : Table),
  method request = "POST" → userprofile request = Some profile →
  t !! pk = Some p → company p = AccountsModels.company profile →
  0 ≤ quantity p →
  let after := calls decrease_stock request pk n t in
  after.2 !! pk = Some (set_quantity (Z.max 0 (quantity p - Z.of_nat n)) p) ∧
  (∀ pk', pk' ≠ pk → after.2 !! pk' = t !! pk') ∧
  Forall succeeded after.1 ∧ length after.1 = n.
Proof.
  induction n as [|n IH]; intros p t Hm Hprofile Hp Hc Hq.
  - simpl. rewrite Z.sub_0_r, Z.max_r, set_quantity_id by done. done.
  - intros after. subst after. cbn [calls].
    pose proof (decrease_stock_own request profile pk p t Hm Hprofile Hp Hc)
      as Hstep. simpl in Hstep. rewrite Hstep.
    set (q' := if decide (quantity p > 0) then quantity p - 1 else quantity p).
    destruct (IH (set_quantity q' p) (<[pk := set_quantity q' p]> t) Hm Hprofile)
      as (Hlook & Hother & Hok & Hlen);
      [apply lookup_insert_eq|done|simpl; subst q'; case_decide; lia|].
    destruct (calls decrease_stock request pk n _) as [rs t'']. simpl in *.
    split; [|split; [|split]].
    + rewrite Hlook. f_equal. unfold set_quantity. simpl. f_equal.
      subst q'. case_decide; lia.
    + intros pk' Hne. rewrite Hother by done. by rewrite lookup_insert_ne.
    + constructor; [|done]. by eexists _, _, _.
    + by rewrite Hlen.
Qed.

(** X15: the add view never alters or removes a stored row and stores at
    most one new one: the old table is contained in the new one, which has
    at most one row more; a request that is not a POST, a request without
    a profile and a submission that fails validation store nothing. *)
Theorem product_add_keeps_rows request (t : Table) :
  t ⊆ (product_add request t).2 ∧
  (size (product_add request t).2 ≤ S (size t))%nat ∧
  (method request ≠ "POST" ∨ userprofile request = None ∨
   ProductForm_clean (POST request) (FILES request) None = None →
   (product_add request t).2 = t).
Proof.
  unfold product_add.
  destruct (userprofile request) as [profile|]; simpl.
  2: { split; [done|]. split; [lia|done]. }
  destruct (decide (method request = "POST")) as [Hm|Hm]; simpl.
  2: { split; [done|]. split; [lia|done]. }
  destruct (ProductForm_clean _ _ None) as [p0|]; simpl.
  2: { split; [done|]. split; [lia|done]. }
  split; [apply insert_subseteq, next_pk_fresh|]. split.
  - rewrite map_size_insert_None by apply next_pk_fresh. lia.
  - intros [?|[?|?]]; done.
Qed.

End StockAndAdd.

Lemma quantities_stay_nonneg_witness :
  nonneg (run (ext := Fixtures.externals) (OpDecrease 2)
            (Fixtures.post_request [] (Some Fixtures.staff1)) Fixtures.stock).2.
Proof.
  apply (quantities_stay_nonneg (ext := Fixtures.externals)).
  - intros data files instance p. simpl.
    destruct (data !! "item_name"); [|done]. intros [= <-]. simpl. lia.
  - intros pk p Hp. apply elem_of_map_to_list in Hp. revert Hp.
    vm_compute (map_to_list _). intros Hp.
    repeat (apply elem_of_cons in Hp as [[= -> ->]|Hp]; [by vm_compute|]).
    by apply not_elem_of_nil in Hp.
Defined.

(** Five increments of the sprocket, which starts out of stock. *)
Lemma increase_stock_n_witness :
  (calls (increase_stock (ext := Fixtures.externals))
     (Fixtures.post_request [] (Some Fixtures.staff1)) 2 5 Fixtures.stock).2 !! 2 =
    Some (Fixtures.product 1 "Sprocket" "Widgets" 100 5).
Proof.
  destruct (increase_stock_n (ext := Fixtures.externals)
              (Fixtures.post_request [] (Some Fixtures.staff1))
              Fixtures.staff1 2 Fixtures.sprocket Fixtures.stock 5
              eq_refl eq_refl eq_refl eq_refl) as (Hq & _).
  exact Hq.
Defined.

(** Six decrements of the widget, which has four in stock. *)
Lemma decrease_stock_n_witness :
  (calls (decrease_stock (ext := Fixtures.externals))
     (Fixtures.post_request [] (Some Fixtures.staff1)) 1 6 Fixtures.stock).2 !! 1 =
    Some (Fixtures.product 1 "Widget" "Hardware" 250 0).
Proof.
  destruct (decrease_stock_n (ext := Fixtures.externals)
              (Fixtures.post_request [] (Some Fixtures.staff1))
              Fixtures.staff1 1 6 Fixtures.widget Fixtures.stock
              eq_refl eq_refl eq_refl eq_refl) as (Hq & _);
    [by vm_compute|].
  exact Hq.
Defined.

(** *** Further properties: the listing *)

Lemma listed_resolved request profile (t : Table) :
  userprofile request = Some profile →
  let q := get_default (GET request) "search" "" in
  let cf := get_default (GET request) "cost_filter" "" in
  let products := evaluate cf (selected (AccountsModels.company profile) q t) in
  listed (inventory_list request t) = products ∧
  listed_total (inventory_list request t) = value_sum products ∧
  body (inventory_list request t) =
    render (list_template profile)
      (ListContext products q cf profile (sum_total_value products)).
Proof.
  intros Hprofile. rewrite (inventory_list_resolved _ _ _ Hprofile).
  unfold listed, listed_total. simpl.
  by rewrite sum_total_value_value_sum.
Qed.

Lemma evaluate_ext_Permutation cf1 cf2 (t : Table) :
  evaluate cf1 t ≡ₚ evaluate cf2 t.
Proof. by rewrite !evaluate_Permutation. Qed.

(** X16: a product just added shows up in the adding profile's listing:
    after a valid add, a listing without search for the same profile shows
    the rows it showed before and the new row, and its total has grown by
    the new row's cost price times quantity. *)
Theorem add_then_list {ext : Externals} request list_request profile p0
    (t : Table) :
  userprofile request = Some profile → method request = "POST" →
  ProductForm_clean (POST request) (FILES request) None = Some p0 →
  userprofile list_request = Some profile →
  get_default (GET list_request) "search" "" = "" →
  let t' := (product_add request t).2 in
  let new := (next_pk t, set_company (AccountsModels.company profile) p0) in
  listed (inventory_list list_request t') ≡ₚ
    new :: listed (inventory_list list_request t) ∧
  listed_total (inventory_list list_request t') =
    listed_total (inventory_list list_request t) +
    cost_price p0 * quantity p0.
Proof.
  intros Hprofile Hm Hform Hlist Hq t' new.
  assert (Ht' : t' = <[new.1 := new.2]> t).
  { subst t' new. unfold product_add. by rewrite Hprofile, decide_True, Hform. }
  destruct (listed_resolved list_request profile t Hlist) as (Hl & Htot & _).
  destruct (listed_resolved list_request profile t' Hlist) as (Hl' & Htot' & _).
  rewrite Hq in Hl, Hl', Htot, Htot'.
  set (c := AccountsModels.company profile) in *.
  assert (Hperm : evaluate (get_default (GET list_request) "cost_filter" "")
                    (selected c "" t') ≡ₚ
                  new :: evaluate (get_default (GET list_request) "cost_filter" "")
                           (selected c "" t)).
  { rewrite !evaluate_Permutation. unfold selected. simpl.
    rewrite Ht'. unfold filter_company.
    rewrite map_filter_insert_True by done.
    rewrite map_to_list_insert; [by destruct new|].
    apply map_lookup_filter_None. left. apply next_pk_fresh. }
  split.
  - by rewrite Hl', Hl.
  - rewrite Htot', Htot, (value_sum_Permutation _ _ Hperm). simpl. lia.
Qed.

(** X17: the cost filter only orders the listing. Two listings for the
    same profile and search show the same rows, up to order, and the same
    total whatever their cost filters; with ["low"] the rows come by
    ascending and with ["high"] by descending cost price. *)
Theorem cost_filter_only_orders r1 r2 profile (t : Table) :
  userprofile r1 = Some profile → userprofile r2 = Some profile →
  get_default (GET r1) "search" "" = get_default (GET r2) "search" "" →
  listed (inventory_list r1 t) ≡ₚ listed (inventory_list r2 t) ∧
  listed_total (inventory_list r1 t) = listed_total (inventory_list r2 t) ∧
  (get_default (GET r1) "cost_filter" "" = "low" →
     Sorted cost_le (listed (inventory_list r1 t))) ∧
  (get_default (GET r1) "cost_filter" "" = "high" →
     Sorted cost_ge (listed (inventory_list r1 t))).
Proof.
  intros H1 H2 Hq.
  destruct (listed_resolved r1 profile t H1) as (Hl1 & Htot1 & _).
  destruct (listed_resolved r2 profile t H2) as (Hl2 & Htot2 & _).
  rewrite Hl1, Hl2, Htot1, Htot2, Hq.
  split; [apply evaluate_ext_Permutation|].
  split; [apply value_sum_Permutation, evaluate_ext_Permutation|].
  split; intros ->; apply evaluate_Sorted.
Qed.

Lemma lower_char_same_letter a b :
  same_letter a b → lower_char a = lower_char b.
Proof.
  unfold same_letter, lower_char.
  intros [->|[[Hm Hn]|[Hn Hm]]]; [done| |].
  - rewrite Hn.
    replace ((65 <=? Ascii.nat_of_ascii a) && (Ascii.nat_of_ascii a <=? 90))%nat
      with true by (symmetry; apply andb_true_iff; split; apply Nat.leb_le; lia).
    replace ((65 <=? Ascii.nat_of_ascii a + 32) &&
             (Ascii.nat_of_ascii a + 32 <=? 90))%nat
      with false
      by (symmetry; apply andb_false_iff; right; apply Nat.leb_gt; lia).
    by rewrite <- Hn, Ascii.ascii_nat_embedding.
  - rewrite Hm.
    replace ((65 <=? Ascii.nat_of_ascii b) && (Ascii.nat_of_ascii b <=? 90))%nat
      with true by (symmetry; apply andb_true_iff; split; apply Nat.leb_le; lia).
    replace ((65 <=? Ascii.nat_of_ascii b + 32) &&
             (Ascii.nat_of_ascii b + 32 <=? 90))%nat
      with false
      by (symmetry; apply andb_false_iff; right; apply Nat.leb_gt; lia).
    by rewrite <- Hm, Ascii.ascii_nat_embedding.
Qed.

Lemma lower_same_up_to_case (s1 s2 : string) :
  same_up_to_case s1 s2 → lower s1 = lower s2.
Proof.
  induction 1 as [|a b s1 s2 Hab _ IH]; [done|]. simpl.
  by rewrite (lower_char_same_letter a b Hab), IH.
Qed.

(** X18: the search ignores the case of the letters A to Z in the search
    string: two search strings that are the same up to the case of their
    letters give, for the same profile and cost filter, the same rows in
    the same order and the same total. *)
Theorem search_ignores_case r1 r2 profile (t : Table) :
  userprofile r1 = Some profile → userprofile r2 = Some profile →
  get_default (GET r1) "cost_filter" "" = get_default (GET r2) "cost_filter" "" →
  same_up_to_case (get_default (GET r1) "search" "")
    (get_default (GET r2) "search" "") →
  listed (inventory_list r1 t) = listed (inventory_list r2 t) ∧
  listed_total (inventory_list r1 t) = listed_total (inventory_list r2 t).
Proof.
  intros H1 H2 Hcf Hsame.
  destruct (listed_resolved r1 profile t H1) as (Hl1 & Htot1 & _).
  destruct (listed_resolved r2 profile t H2) as (Hl2 & Htot2 & _).
  rewrite Hl1, Hl2, Htot1, Htot2, Hcf.
  assert (Hsel : selected (AccountsModels.company profile)
                   (get_default (GET r1) "search" "") t =
                 selected (AccountsModels.company profile)
                   (get_default (GET r2) "search" "") t).
  { unfold selected.
    pose proof (lower_same_up_to_case _ _ Hsame) as Hlower.
    destruct Hsame as [|a b s1 s2 Hab Hrest]; [done|].
    rewrite !decide_False by done.
    unfold filter_search, icontains. by rewrite Hlower. }
  by rewrite Hsel.
Qed.

(** X19: a search only narrows the listing: every row a listing with a
    search string shows is shown, with the same fields, by the listing of
    the same profile without one, so it never shows more rows. *)
Theorem search_narrows r1 r2 profile (t : Table) :
  userprofile r1 = Some profile → userprofile r2 = Some profile →
  get_default (GET r2) "search" "" = "" →
  (∀ r, r ∈ listed (inventory_list r1 t) → r ∈ listed (inventory_list r2 t)) ∧
  (length (listed (inventory_list r1 t)) ≤
     length (listed (inventory_list r2 t)))%nat.
Proof.
  intros H1 H2 Hq2.
  destruct (listed_resolved r1 profile t H1) as (Hl1 & _).
  destruct (listed_resolved r2 profile t H2) as (Hl2 & _).
  rewrite Hl1, Hl2, Hq2.
  assert (Hsub : ∀ r,
    r ∈ evaluate (get_default (GET r1) "cost_filter" "")
          (selected (AccountsModels.company profile)
             (get_default (GET r1) "search" "") t) →
    r ∈ evaluate (get_default (GET r2) "cost_filter" "")
          (selected (AccountsModels.company profile) "" t)).
  { intros r. rewrite !elem_of_evaluate, !lookup_selected.
    unfold visible. naive_solver. }
  split; [done|].
  apply submseteq_length, NoDup_submseteq; [apply NoDup_evaluate|done].
Qed.

(** X20: the role decides the template of the listing and nothing else:
    two profiles of the same company see, for the same query parameters,
    the same rows in the same order and the same total; the owner's page
    is [inventory_list.html] and every other role's
    [inventory_list_staff.html]. *)
Theorem roles_see_same_inventory r1 r2 profile1 profile2 (t : Table) :
  userprofile r1 = Some profile1 → userprofile r2 = Some profile2 →
  AccountsModels.company profile1 = AccountsModels.company profile2 →
  GET r1 = GET r2 →
  listed (inventory_list r1 t) = listed (inventory_list r2 t) ∧
  listed_total (inventory_list r1 t) = listed_total (inventory_list r2 t) ∧
  ∃ context1,
    body (inventory_list r1 t) =
      render
        (if decide (AccountsModels.role profile1 = "business_owner")
         then "inventory/inventory_list.html"
         else "inventory/inventory_list_staff.html") context1.
Proof.
  intros H1 H2 Hc Hget.
  destruct (listed_resolved r1 profile1 t H1) as (Hl1 & Htot1 & Hbody).
  destruct (listed_resolved r2 profile2 t H2) as (Hl2 & Htot2 & _).
  rewrite Hl1, Hl2, Htot1, Htot2, Hc, Hget.
  split; [done|]. split; [done|]. eexists. rewrite Hbody.
  unfold list_template, is_owner.
  case_bool_decide; case_decide; done.
Qed.

(** Staff of company 1 adds a bolt; the owner's listing then has it. *)
Lemma add_then_list_witness :
  listed_total
    (inventory_list (Fixtures.get_request [] (Some Fixtures.staff1))
       (product_add (ext := Fixtures.externals)
          (Fixtures.post_request [("item_name", "Bolt")] (Some Fixtures.staff1))
          Fixtures.stock).2) =
  listed_total
    (inventory_list (Fixtures.get_request [] (Some Fixtures.staff1))
       Fixtures.stock) + 250 * 1.
Proof.
  destruct (add_then_list (ext := Fixtures.externals)
              (Fixtures.post_request [("item_name", "Bolt")] (Some Fixtures.staff1))
              (Fixtures.get_request [] (Some Fixtures.staff1))
              Fixtures.staff1 (Fixtures.product 0 "Bolt" "" 250 1) Fixtures.stock
              eq_refl eq_refl eq_refl eq_refl eq_refl) as [_ Htotal].
  exact Htotal.
Defined.

Lemma cost_filter_only_orders_witness :
  Sorted cost_le
    (listed (inventory_list
               (Fixtures.get_request [("cost_filter", "low")] (Some Fixtures.owner1))
               Fixtures.stock)) ∧
  listed_total
    (inventory_list
       (Fixtures.get_request [("cost_filter", "low")] (Some Fixtures.owner1))
       Fixtures.stock) =
  listed_total
    (inventory_list
       (Fixtures.get_request [("cost_filter", "high")] (Some Fixtures.owner1))
       Fixtures.stock).
Proof.
  destruct (cost_filter_only_orders
              (Fixtures.get_request [("cost_filter", "low")] (Some Fixtures.owner1))
              (Fixtures.get_request [("cost_filter", "high")] (Some Fixtures.owner1))
              Fixtures.owner1 Fixtures.stock eq_refl eq_refl eq_refl)
    as (_ & Htotal & Hlow & _).
  split; [apply Hlow; reflexivity|exact Htotal].
Defined.

(** The searches ["WiD"] and ["wid"] list the same rows. *)
Lemma search_ignores_case_witness :
  listed (inventory_list
            (Fixtures.get_request [("search", "WiD")] (Some Fixtures.owner1))
            Fixtures.stock) =
  listed (inventory_list
            (Fixtures.get_request [("search", "wid")] (Some Fixtures.owner1))
            Fixtures.stock).
Proof.
  destruct (search_ignores_case
              (Fixtures.get_request [("search", "WiD")] (Some Fixtures.owner1))
              (Fixtures.get_request [("search", "wid")] (Some Fixtures.owner1))
              Fixtures.owner1 Fixtures.stock eq_refl eq_refl eq_refl)
    as [Hsame _]; [|exact Hsame].
  change (same_up_to_case "WiD" "wid").
  apply same_next; [right; left; vm_compute; lia|].
  apply same_next; [by left|].
  apply same_next; [right; left; vm_compute; lia|].
  apply same_empty.
Defined.

Lemma search_narrows_witness :
  (length (listed (inventory_list
                     (Fixtures.get_request [("search", "wid")] (Some Fixtures.owner1))
                     Fixtures.stock)) ≤
   length (listed (inventory_list
                     (Fixtures.get_request [] (Some Fixtures.owner1))
                     Fixtures.stock)))%nat.
Proof.
  destruct (search_narrows
              (Fixtures.get_request [("search", "wid")] (Some Fixtures.owner1))
              (Fixtures.get_request [] (Some Fixtures.owner1))
              Fixtures.owner1 Fixtures.stock eq_refl eq_refl eq_refl)
    as [_ Hlen].
  exact Hlen.
Defined.

Lemma roles_see_same_inventory_witness :
  listed (inventory_list (Fixtures.get_request [] (Some Fixtures.owner1))
            Fixtures.stock) =
  listed (inventory_list (Fixtures.get_request [] (Some Fixtures.staff1))
            Fixtures.stock).
Proof.
  destruct (roles_see_same_inventory
              (Fixtures.get_request [] (Some Fixtures.owner1))
              (Fixtures.get_request [] (Some Fixtures.staff1))
              Fixtures.owner1 Fixtures.staff1 Fixtures.stock
              eq_refl eq_refl eq_refl eq_refl) as [Hsame _].
  exact Hsame.
Defined.

End InventoryProofs.
